(** * Task manager: data model, change log, filter and manager operations

    A shallow embedding of [main_ref2.py]: the classes [Priority],
    [TaskStatus], [ChangeLog], [Notification], [Task], [TaskFilter] and
    [TaskManager], together with the parts of Python's [datetime] and [json]
    modules that these classes call. *)

From Stdlib Require Import ZArith String Ascii List Bool Lia.
From stdpp Require Import base list gmap strings.
Import ListNotations.

#[local] Set Warnings "-register-all".

Local Open Scope string_scope.
Local Open Scope Z_scope.

(** ** Enumerations *)

Inductive Priority := LOW | MEDIUM | HIGH | CRITICAL.

Inductive TaskStatus := PENDING | COMPLETED | ARCHIVED | DELETED.

(** [Enum.name] *)
Definition Priority_name (p : Priority) : string :=
  match p with
  | LOW => "LOW" | MEDIUM => "MEDIUM" | HIGH => "HIGH" | CRITICAL => "CRITICAL"
  end.

Definition TaskStatus_name (s : TaskStatus) : string :=
  match s with
  | PENDING => "PENDING" | COMPLETED => "COMPLETED"
  | ARCHIVED => "ARCHIVED" | DELETED => "DELETED"
  end.

(** [==] on enumeration members *)
Definition Priority_eqb (a b : Priority) : bool :=
  match a, b with
  | LOW, LOW | MEDIUM, MEDIUM | HIGH, HIGH | CRITICAL, CRITICAL => true
  | _, _ => false
  end.

Definition TaskStatus_eqb (a b : TaskStatus) : bool :=
  match a, b with
  | PENDING, PENDING | COMPLETED, COMPLETED
  | ARCHIVED, ARCHIVED | DELETED, DELETED => true
  | _, _ => false
  end.

(** ** Naive [datetime] values

    A [datetime] is the tuple of its seven fields, as in CPython's
    [_pydatetime]; the constructor of the Python class only builds values
    satisfying [valid_datetime]. *)

Record datetime := mk_datetime {
  dt_year : Z; dt_month : Z; dt_day : Z;
  dt_hour : Z; dt_minute : Z; dt_second : Z; dt_microsecond : Z
}.

Definition is_leap (y : Z) : bool :=
  (y mod 4 =? 0) && (negb (y mod 100 =? 0) || (y mod 400 =? 0)).

Definition days_in_month (y m : Z) : Z :=
  if (m =? 2) && is_leap y then 29
  else match m with
       | 1 => 31 | 2 => 28 | 3 => 31 | 4 => 30 | 5 => 31 | 6 => 30
       | 7 => 31 | 8 => 31 | 9 => 30 | 10 => 31 | 11 => 30 | 12 => 31
       | _ => -1
       end.

Definition days_before_year (y : Z) : Z :=
  let y1 := y - 1 in y1 * 365 + y1 / 4 - y1 / 100 + y1 / 400.

Definition days_before_month (y m : Z) : Z :=
  match m with
  | 1 => 0 | 2 => 31 | 3 => 59 | 4 => 90 | 5 => 120 | 6 => 151
  | 7 => 181 | 8 => 212 | 9 => 243 | 10 => 273 | 11 => 304 | 12 => 334
  | _ => -1
  end + (if (2 <? m) && is_leap y then 1 else 0).

(** [date.toordinal] *)
Definition ymd2ord (y m d : Z) : Z :=
  days_before_year y + days_before_month y m + d.

Definition in_range (lo x hi : Z) : bool := (lo <=? x) && (x <=? hi).

Definition valid_date (y m d : Z) : bool :=
  in_range 1 y 9999 && in_range 1 m 12 && in_range 1 d (days_in_month y m).

Definition valid_datetime (t : datetime) : bool :=
  valid_date (dt_year t) (dt_month t) (dt_day t)
  && in_range 0 (dt_hour t) 23 && in_range 0 (dt_minute t) 59
  && in_range 0 (dt_second t) 59 && in_range 0 (dt_microsecond t) 999999.

(** Comparison of naive datetimes is the comparison of their field tuples. *)
Fixpoint lex_cmp (xs ys : list Z) : comparison :=
  match xs, ys with
  | [], [] => Eq
  | [], _ :: _ => Lt
  | _ :: _, [] => Gt
  | x :: xs', y :: ys' =>
      match x ?= y with
      | Eq => lex_cmp xs' ys'
      | c => c
      end
  end.

Definition dt_key (t : datetime) : list Z :=
  [dt_year t; dt_month t; dt_day t; dt_hour t; dt_minute t; dt_second t;
   dt_microsecond t].

Definition dt_cmp (a b : datetime) : comparison := lex_cmp (dt_key a) (dt_key b).

(** [a < b], [a <= b], [a >= b] *)
Definition dt_ltb (a b : datetime) : bool :=
  match dt_cmp a b with Lt => true | _ => false end.

Definition dt_leb (a b : datetime) : bool :=
  match dt_cmp a b with Gt => false | _ => true end.

Definition dt_geb (a b : datetime) : bool := dt_leb b a.

(** [(a - b).days]: the difference is normalised so that the number of days
    is the floor of the difference. *)
Definition us_per_day : Z := 86400 * 1000000.

Definition dt_seconds (t : datetime) : Z :=
  dt_second t + dt_minute t * 60 + dt_hour t * 3600.

Definition dt_ordinal (t : datetime) : Z :=
  ymd2ord (dt_year t) (dt_month t) (dt_day t).

Definition dt_sub_us (a b : datetime) : Z :=
  (dt_ordinal a - dt_ordinal b) * us_per_day
  + (dt_seconds a - dt_seconds b) * 1000000
  + (dt_microsecond a - dt_microsecond b).

Definition timedelta_days (a b : datetime) : Z := dt_sub_us a b / us_per_day.

(** ** [strftime] and [strptime] for the two wire formats

    [strftime] writes month, day, hour, minute and second zero-padded to
    two digits. [%Y] is left to the C library, and glibc writes the year
    without padding: a year below 1000 has fewer than four digits (releases
    of CPython that pad the year agree from the year 1000 on). [strptime]
    follows the regular expressions that CPython builds from the format, on
    ASCII text: exactly four digits for [%Y], one or two digits for the
    other fields, [\s+] for the blank of the format, and the range checks
    of the [datetime] constructor. *)

Definition digit_char (n : Z) : ascii :=
  ascii_of_nat (48 + Z.to_nat (n mod 10)).

Definition pad2 (n : Z) (k : string) : string :=
  String (digit_char (n / 10)) (String (digit_char n) k).

Definition pad4 (n : Z) (k : string) : string :=
  String (digit_char (n / 1000)) (String (digit_char (n / 100)) (pad2 n k)).

(** [%Y]: the year in decimal, without padding. *)
Definition year_digits (y : Z) (k : string) : string :=
  if 1000 <=? y then pad4 y k
  else if 100 <=? y then String (digit_char (y / 100)) (pad2 y k)
  else if 10 <=? y then pad2 y k
  else String (digit_char y) k.

(** [t.strftime("%Y-%m-%d")] *)
Definition strftime_date_k (t : datetime) (k : string) : string :=
  year_digits (dt_year t)
    (String "-" (pad2 (dt_month t) (String "-" (pad2 (dt_day t) k)))).

Definition strftime_date (t : datetime) : string := strftime_date_k t "".

(** [t.strftime("%Y-%m-%d %H:%M:%S")] *)
Definition strftime_datetime (t : datetime) : string :=
  strftime_date_k t
    (String " " (pad2 (dt_hour t) (String ":" (pad2 (dt_minute t)
       (String ":" (pad2 (dt_second t) ""))))))%char.

Definition is_digit (c : ascii) : bool :=
  let n := nat_of_ascii c in (48 <=? n)%nat && (n <=? 57)%nat.

Definition digit_val (c : ascii) : Z := Z.of_nat (nat_of_ascii c) - 48.

(** [\s] on the ASCII range *)
Definition is_space (c : ascii) : bool :=
  let n := nat_of_ascii c in
  ((9 <=? n)%nat && (n <=? 13)%nat) || ((28 <=? n)%nat && (n <=? 32)%nat).

(** [\d\d\d\d] *)
Definition read_year (s : string) : option (Z * string) :=
  match s with
  | String a (String b (String c (String d rest))) =>
      if is_digit a && is_digit b && is_digit c && is_digit d
      then Some (digit_val a * 1000 + digit_val b * 100
                 + digit_val c * 10 + digit_val d, rest)
      else None
  | _ => None
  end.

(** One or two digits; the directive's alternatives are tried on the whole
    run of digits, the range being checked by the caller. *)
Definition read_num2 (s : string) : option (Z * string) :=
  match s with
  | String a rest =>
      if is_digit a then
        match rest with
        | String b rest' =>
            if is_digit b then Some (digit_val a * 10 + digit_val b, rest')
            else Some (digit_val a, rest)
        | EmptyString => Some (digit_val a, rest)
        end
      else None
  | EmptyString => None
  end.

(** [%d] also accepts a space followed by one non-zero digit. *)
Definition read_day (s : string) : option (Z * string) :=
  match s with
  | String a (String b rest) =>
      if Ascii.eqb a " " then
        if is_digit b && negb (digit_val b =? 0) then Some (digit_val b, rest)
        else None
      else read_num2 s
  | _ => read_num2 s
  end.

Definition expect (c : ascii) (s : string) : option string :=
  match s with
  | String a rest => if Ascii.eqb a c then Some rest else None
  | EmptyString => None
  end.

Fixpoint skip_spaces (s : string) : string :=
  match s with
  | String a rest => if is_space a then skip_spaces rest else s
  | EmptyString => s
  end.

(** [\s+] *)
Definition read_spaces (s : string) : option string :=
  match s with
  | String a rest => if is_space a then Some (skip_spaces rest) else None
  | EmptyString => None
  end.

Definition read_date (s : string) : option (Z * Z * Z * string) :=
  match read_year s with
  | None => None
  | Some (y, s1) =>
  match expect "-" s1 with
  | None => None
  | Some s2 =>
  match read_num2 s2 with
  | None => None
  | Some (m, s3) =>
  match expect "-" s3 with
  | None => None
  | Some s4 =>
  match read_day s4 with
  | None => None
  | Some (d, s5) => if valid_date y m d then Some (y, m, d, s5) else None
  end end end end end.

Definition read_time (s : string) : option (Z * Z * Z * string) :=
  match read_num2 s with
  | None => None
  | Some (h, s1) =>
  match expect ":" s1 with
  | None => None
  | Some s2 =>
  match read_num2 s2 with
  | None => None
  | Some (mi, s3) =>
  match expect ":" s3 with
  | None => None
  | Some s4 =>
  match read_num2 s4 with
  | None => None
  | Some (sec, s5) =>
      if in_range 0 h 23 && in_range 0 mi 59 && in_range 0 sec 59
      then Some (h, mi, sec, s5) else None
  end end end end end.

(** [datetime.strptime(s, "%Y-%m-%d")]; [None] stands for [ValueError]. *)
Definition strptime_date (s : string) : option datetime :=
  match read_date s with
  | Some (y, m, d, EmptyString) => Some (mk_datetime y m d 0 0 0 0)
  | _ => None
  end.

(** [datetime.strptime(s, "%Y-%m-%d %H:%M:%S")] *)
Definition strptime_datetime (s : string) : option datetime :=
  match read_date s with
  | None => None
  | Some (y, m, d, s1) =>
  match read_spaces s1 with
  | None => None
  | Some s2 =>
  match read_time s2 with
  | Some (h, mi, sec, EmptyString) => Some (mk_datetime y m d h mi sec 0)
  | _ => None
  end end end.


(** The text that follows a numeric field does not start with a digit. *)
Definition no_digit_head (k : string) : bool :=
  match k with
  | String c _ => negb (is_digit c)
  | EmptyString => true
  end.

(** ** JSON values, exceptions and results *)

(** What [json.load] returns (numbers are restricted to integers). A
    dictionary is its list of items; lookup takes the first match. *)
Inductive json :=
| JNull
| JBool (b : bool)
| JNum (n : Z)
| JStr (s : string)
| JList (l : list json)
| JDict (kvs : list (string * json)).

Inductive exn :=
| KeyError (k : json)
| ValueError
| TypeError
| AttributeError
| JSONDecodeError.

(** Outcome of a call that may raise. [IllTyped] is not a Python outcome: it
    marks the point where Python would go on with a value that the class
    annotations exclude (a [title], [description], [category] or [action]
    read from storage that is not a string); the typed model stops there. *)
Inductive result (A : Type) :=
| Ok (a : A)
| Raise (e : exn)
| IllTyped.
Arguments Ok {A} a.
Arguments Raise {A} e.
Arguments IllTyped {A}.

(** State-and-exception monad: a raised exception keeps the state reached. *)
Definition M (S A : Type) : Type := S -> result A * S.

Definition ret {S A} (a : A) : M S A := fun s => (Ok a, s).

Definition raise {S A} (e : exn) : M S A := fun s => (Raise e, s).

Definition lift_result {S A} (r : result A) : M S A := fun s => (r, s).

Definition bind {S A B} (c : M S A) (k : A -> M S B) : M S B :=
  fun s =>
    match c s with
    | (Ok a, s') => k a s'
    | (Raise e, s') => (Raise e, s')
    | (IllTyped, s') => (IllTyped, s')
    end.

Notation "'let!' x ':=' c 'in' k" := (bind c (fun x => k))
  (at level 10, x name, c at level 100, k at level 200).

(** [try: body except (JSONDecodeError, KeyError) as e: handler] *)
Definition caught (e : exn) : bool :=
  match e with
  | JSONDecodeError | KeyError _ => true
  | ValueError | TypeError | AttributeError => false
  end.

Definition try_except {S A} (body : M S A) (handler : exn -> M S A) : M S A :=
  fun s =>
    match body s with
    | (Raise e, s') => if caught e then handler e s' else (Raise e, s')
    | r => r
    end.

Fixpoint dict_lookup (k : string) (kvs : list (string * json)) : option json :=
  match kvs with
  | [] => None
  | (k', v) :: rest => if String.eqb k k' then Some v else dict_lookup k rest
  end.

(** [data[k]] with a string key *)
Definition getitem (data : json) (k : string) : result json :=
  match data with
  | JDict kvs =>
      match dict_lookup k kvs with
      | Some v => Ok v
      | None => Raise (KeyError (JStr k))
      end
  | _ => Raise TypeError
  end.

(** [data.get(k, default)]; only dictionaries have a [get] method. *)
Definition get (data : json) (k : string) (default : json) : result json :=
  match data with
  | JDict kvs =>
      match dict_lookup k kvs with
      | Some v => Ok v
      | None => Ok default
      end
  | _ => Raise AttributeError
  end.

(** Truth value of a JSON value *)
Definition truthy (v : json) : bool :=
  match v with
  | JNull => false
  | JBool b => b
  | JNum n => negb (n =? 0)
  | JStr s => negb (String.eqb s "")
  | JList l => match l with [] => false | _ => true end
  | JDict kvs => match kvs with [] => false | _ => true end
  end.

(** [for x in v] *)
Fixpoint chars (s : string) : list json :=
  match s with
  | EmptyString => []
  | String c rest => JStr (String c EmptyString) :: chars rest
  end.

Definition iter (v : json) : result (list json) :=
  match v with
  | JList l => Ok l
  | JDict kvs => Ok (map (fun kv => JStr (fst kv)) kvs)
  | JStr s => Ok (chars s)
  | _ => Raise TypeError
  end.

Definition as_str (v : json) : result string :=
  match v with
  | JStr s => Ok s
  | _ => IllTyped
  end.

(** [datetime.strptime(v, fmt)] on a value read from storage *)
Definition strptime (parse : string -> option datetime) (v : json)
  : result datetime :=
  match v with
  | JStr s =>
      match parse s with
      | Some t => Ok t
      | None => Raise ValueError
      end
  | _ => Raise TypeError
  end.

(** [Priority[v]] and [TaskStatus[v]]: lookup of a member by name *)
Definition Priority_getitem (v : json) : result Priority :=
  match v with
  | JStr s =>
      if String.eqb s "LOW" then Ok LOW
      else if String.eqb s "MEDIUM" then Ok MEDIUM
      else if String.eqb s "HIGH" then Ok HIGH
      else if String.eqb s "CRITICAL" then Ok CRITICAL
      else Raise (KeyError v)
  | JList _ | JDict _ => Raise TypeError
  | _ => Raise (KeyError v)
  end.

Definition TaskStatus_getitem (v : json) : result TaskStatus :=
  match v with
  | JStr s =>
      if String.eqb s "PENDING" then Ok PENDING
      else if String.eqb s "COMPLETED" then Ok COMPLETED
      else if String.eqb s "ARCHIVED" then Ok ARCHIVED
      else if String.eqb s "DELETED" then Ok DELETED
      else Raise (KeyError v)
  | JList _ | JDict _ => Raise TypeError
  | _ => Raise (KeyError v)
  end.

(** ** Task *)

Record Task := mk_Task {
  title : string;
  description : string;
  due_date : option datetime;
  priority : Priority;
  category : string;
  status : TaskStatus;
  created_at : datetime;
  updated_at : datetime;
  completed_at : option datetime
}.

Definition set_title (v : string) (t : Task) : Task :=
  mk_Task v (description t) (due_date t) (priority t) (category t) (status t)
    (created_at t) (updated_at t) (completed_at t).
Definition set_description (v : string) (t : Task) : Task :=
  mk_Task (title t) v (due_date t) (priority t) (category t) (status t)
    (created_at t) (updated_at t) (completed_at t).
Definition set_due_date (v : option datetime) (t : Task) : Task :=
  mk_Task (title t) (description t) v (priority t) (category t) (status t)
    (created_at t) (updated_at t) (completed_at t).
Definition set_priority (v : Priority) (t : Task) : Task :=
  mk_Task (title t) (description t) (due_date t) v (category t) (status t)
    (created_at t) (updated_at t) (completed_at t).
Definition set_category (v : string) (t : Task) : Task :=
  mk_Task (title t) (description t) (due_date t) (priority t) v (status t)
    (created_at t) (updated_at t) (completed_at t).
Definition set_status (v : TaskStatus) (t : Task) : Task :=
  mk_Task (title t) (description t) (due_date t) (priority t) (category t) v
    (created_at t) (updated_at t) (completed_at t).
Definition set_created_at (v : datetime) (t : Task) : Task :=
  mk_Task (title t) (description t) (due_date t) (priority t) (category t)
    (status t) v (updated_at t) (completed_at t).
Definition set_updated_at (v : datetime) (t : Task) : Task :=
  mk_Task (title t) (description t) (due_date t) (priority t) (category t)
    (status t) (created_at t) v (completed_at t).
Definition set_completed_at (v : option datetime) (t : Task) : Task :=
  mk_Task (title t) (description t) (due_date t) (priority t) (category t)
    (status t) (created_at t) (updated_at t) v.

(** A keyword argument of [Task.update]. The nine attributes of an instance
    carry a value of the attribute's annotated type; [kw_other] is a keyword
    that names no attribute of the instance. *)
Inductive kwarg :=
| kw_title (v : string)
| kw_description (v : string)
| kw_due_date (v : option datetime)
| kw_priority (v : Priority)
| kw_category (v : string)
| kw_status (v : TaskStatus)
| kw_created_at (v : datetime)
| kw_updated_at (v : datetime)
| kw_completed_at (v : option datetime)
| kw_other (name : string) (v : json).

Definition kw_key (kw : kwarg) : string :=
  match kw with
  | kw_title _ => "title" | kw_description _ => "description"
  | kw_due_date _ => "due_date" | kw_priority _ => "priority"
  | kw_category _ => "category" | kw_status _ => "status"
  | kw_created_at _ => "created_at" | kw_updated_at _ => "updated_at"
  | kw_completed_at _ => "completed_at" | kw_other name _ => name
  end.

Definition hasattr (kw : kwarg) : bool :=
  match kw with
  | kw_other _ _ => false
  | _ => true
  end.

Definition setattr (t : Task) (kw : kwarg) : Task :=
  match kw with
  | kw_title v => set_title v t
  | kw_description v => set_description v t
  | kw_due_date v => set_due_date v t
  | kw_priority v => set_priority v t
  | kw_category v => set_category v t
  | kw_status v => set_status v t
  | kw_created_at v => set_created_at v t
  | kw_updated_at v => set_updated_at v t
  | kw_completed_at v => set_completed_at v t
  | kw_other _ _ => t
  end.

Definition opt_json {A} (f : A -> string) (o : option A) : json :=
  match o with
  | Some a => JStr (f a)
  | None => JNull
  end.

(** [Task.to_dict] *)
Definition to_dict (t : Task) : json :=
  JDict
    [("title", JStr (title t));
     ("description", JStr (description t));
     ("due_date", opt_json strftime_date (due_date t));
     ("priority", JStr (Priority_name (priority t)));
     ("category", JStr (category t));
     ("status", JStr (TaskStatus_name (status t)));
     ("created_at", JStr (strftime_datetime (created_at t)));
     ("updated_at", JStr (strftime_datetime (updated_at t)));
     ("completed_at", opt_json strftime_datetime (completed_at t))].

(** ** Change log entries, filters, storage and the manager's state *)

Record entry := mk_entry {
  action : string;
  task_data : json;
  timestamp : datetime
}.

Record ChangeLog := mk_ChangeLog { changes : list entry }.

Module TaskFilter.

Record t := mk {
  status : option TaskStatus;
  priority : option Priority;
  category : option string;
  overdue_only : bool;
  due_in_days : option Z
}.

End TaskFilter.

(** Content of [task_manager_data.json] as [json.load] sees it. *)
Inductive file :=
| Corrupt
| Document (data : json).

(** Lines written to standard output. [LoadError e] is the line
    [Error loading data: {e}]. *)
Inductive output :=
| Printed (line : string)
| LoadError (e : exn).

(** The abstract class [Notification]: [send] may change the sink and write
    to standard output. *)
Class Notification (N : Type) := {
  send : N -> string -> list output -> N * list output
}.

Inductive ConsoleNotification := console_notification.

#[export] Instance ConsoleNotification_send : Notification ConsoleNotification := {
  send self message out := (self, (out ++ [Printed ("Notification: " ++ message)%string])%list)
}.

(** A sink that keeps the messages it was sent. *)
#[export] Instance Recording_send : Notification (list string) := {
  send self message out := ((self ++ [message])%list, out)
}.

(** The manager object together with the world it acts on: the clock (the
    number of readings of [datetime.now()] so far), the storage file (absent
    or present) and standard output. *)
Record State (N : Type) := mk_State {
  tasks : list Task;
  changelog : ChangeLog;
  notification : N;
  ticks : nat;
  storage : option file;
  stdout : list output
}.
Arguments mk_State {N}.
Arguments tasks {N}.
Arguments changelog {N}.
Arguments notification {N}.
Arguments ticks {N}.
Arguments storage {N}.
Arguments stdout {N}.

Section Program.

Variable clock : nat -> datetime.

(** [datetime.now()]: each call is one more reading of the clock. *)
Definition now : M nat datetime := fun k => (Ok (clock k), S k).

(** [Task.__init__] *)
Definition Task_init (title description : string) (due_date : option datetime)
    (priority : Priority) (category : string) : M nat Task :=
  let! c := now in
  let! u := now in
  ret (mk_Task title description due_date priority category PENDING c u None).

(** [Task.update] *)
Definition update (self : Task) (kwargs : list kwarg) : M nat Task :=
  let self :=
    fold_left (fun self kw => if hasattr kw then setattr self kw else self)
      kwargs self in
  let! n := now in
  ret (set_updated_at n self).

(** [Task.mark_as_completed] *)
Definition mark_as_completed (self : Task) : M nat Task :=
  let self := set_status COMPLETED self in
  let! n := now in
  let self := set_completed_at (Some n) self in
  let! n := now in
  ret (set_updated_at n self).

(** [Task.archive] *)
Definition archive (self : Task) : M nat Task :=
  let self := set_status ARCHIVED self in
  let! n := now in
  ret (set_updated_at n self).

(** [Task.from_dict]. The arguments of the constructor are evaluated in
    order, then the constructor runs, then the remaining attributes are
    assigned. *)
Definition from_dict (data : json) : M nat Task :=
  let! v_title := lift_result (getitem data "title") in
  let! v_description := lift_result (get data "description" (JStr "")) in
  let! c := lift_result (get data "due_date" JNull) in
  let! v_due_date :=
    (if truthy c then
       let! v := lift_result (getitem data "due_date") in
       let! d := lift_result (strptime strptime_date v) in
       ret (Some d)
     else ret None) in
  let! p := lift_result (get data "priority" (JStr "MEDIUM")) in
  let! v_priority := lift_result (Priority_getitem p) in
  let! v_category := lift_result (get data "category" (JStr "General")) in
  let! s_title := lift_result (as_str v_title) in
  let! s_description := lift_result (as_str v_description) in
  let! s_category := lift_result (as_str v_category) in
  let! task := Task_init s_title s_description v_due_date v_priority s_category in
  let! s := lift_result (get data "status" (JStr "PENDING")) in
  let! v_status := lift_result (TaskStatus_getitem s) in
  let task := set_status v_status task in
  let! v := lift_result (getitem data "created_at") in
  let! v_created_at := lift_result (strptime strptime_datetime v) in
  let task := set_created_at v_created_at task in
  let! v := lift_result (getitem data "updated_at") in
  let! v_updated_at := lift_result (strptime strptime_datetime v) in
  let task := set_updated_at v_updated_at task in
  let! c := lift_result (get data "completed_at" JNull) in
  if truthy c then
    let! v := lift_result (getitem data "completed_at") in
    let! v_completed_at := lift_result (strptime strptime_datetime v) in
    ret (set_completed_at (Some v_completed_at) task)
  else ret task.

(** [Task.is_overdue]: the value of the [and] chain is [None] when there is
    no due date, a boolean otherwise. *)
Definition is_overdue (self : Task) : M nat (option bool) :=
  match due_date self with
  | None => ret None
  | Some d =>
      let! n := now in
      if dt_ltb d n
      then ret (Some (negb (TaskStatus_eqb (status self) COMPLETED)))
      else ret (Some false)
  end.

(** Truth value of the result of [is_overdue] *)
Definition truth (v : option bool) : bool :=
  match v with
  | Some b => b
  | None => false
  end.

(** [Task.days_until_due] *)
Definition days_until_due (self : Task) : M nat (option Z) :=
  match due_date self with
  | None => ret None
  | Some d =>
      let! n := now in
      ret (Some (timedelta_days d n))
  end.

(** ** ChangeLog *)

(** [ChangeLog.add_change]; a datetime is always true, so [timestamp or
    datetime.now()] reads the clock only when no timestamp is given. *)
Definition add_change (self : ChangeLog) (action : string) (task_data : json)
    (timestamp : option datetime) : M nat ChangeLog :=
  let! ts := (match timestamp with
              | Some ts => ret ts
              | None => now
              end) in
  ret (mk_ChangeLog (changes self ++ [mk_entry action task_data ts])%list).

(** [ChangeLog.get_changes_since]; the log itself is returned as well. *)
Definition get_changes_since (self : ChangeLog) (since : datetime)
  : list entry * ChangeLog :=
  (List.filter (fun change => dt_geb (timestamp change) since) (changes self),
   self).

(** [ChangeLog.to_dict] *)
Definition ChangeLog_to_dict (self : ChangeLog) : json :=
  JList (map (fun change =>
                JDict [("action", JStr (action change));
                       ("task_data", task_data change);
                       ("timestamp", JStr (strftime_datetime (timestamp change)))])
             (changes self)).

Definition entry_from_dict (e : json) : result entry :=
  match getitem e "action" with
  | Ok a =>
      match getitem e "task_data" with
      | Ok d =>
          match getitem e "timestamp" with
          | Ok v =>
              match strptime strptime_datetime v with
              | Ok ts =>
                  match as_str a with
                  | Ok a => Ok (mk_entry a d ts)
                  | Raise x => Raise x
                  | IllTyped => IllTyped
                  end
              | Raise x => Raise x
              | IllTyped => IllTyped
              end
          | Raise x => Raise x
          | IllTyped => IllTyped
          end
      | Raise x => Raise x
      | IllTyped => IllTyped
      end
  | Raise x => Raise x
  | IllTyped => IllTyped
  end.

Fixpoint entries_from_dict (acc : list entry) (data : list json)
  : result (list entry) :=
  match data with
  | [] => Ok acc
  | e :: rest =>
      match entry_from_dict e with
      | Ok c => entries_from_dict (acc ++ [c])%list rest
      | Raise x => Raise x
      | IllTyped => IllTyped
      end
  end.

(** [ChangeLog.from_dict] *)
Definition ChangeLog_from_dict (data : json) : result ChangeLog :=
  match iter data with
  | Ok l =>
      match entries_from_dict [] l with
      | Ok cs => Ok (mk_ChangeLog cs)
      | Raise x => Raise x
      | IllTyped => IllTyped
      end
  | Raise x => Raise x
  | IllTyped => IllTyped
  end.

(** ** TaskFilter *)

(** A list comprehension [[t for t in l if p(t)]] whose condition reads the
    clock. *)
Fixpoint comprehension (p : Task -> M nat bool) (l : list Task)
  : M nat (list Task) :=
  match l with
  | [] => ret []
  | t :: rest =>
      let! b := p t in
      let! rest' := comprehension p rest in
      ret (if b then t :: rest' else rest')
  end.

Definition opt_eqb {A} (eqb : A -> A -> bool) (x : A) (o : option A) : bool :=
  match o with
  | Some y => eqb x y
  | None => true
  end.

(** The condition of the last comprehension of [apply]:
    [t.days_until_due() is not None and 0 <= t.days_until_due() <= n] *)
Definition due_within (n : Z) (t : Task) : M nat bool :=
  let! d := days_until_due t in
  match d with
  | None => ret false
  | Some _ =>
      let! d := days_until_due t in
      match d with
      | Some d => ret ((0 <=? d) && (d <=? n))
      | None => raise TypeError
      end
  end.

(** [TaskFilter.apply] *)
Definition TaskFilter_apply (self : TaskFilter.t) (tasks : list Task)
  : M nat (list Task) :=
  let filtered := tasks in
  let filtered :=
    match TaskFilter.status self with
    | Some s => List.filter (fun t => TaskStatus_eqb (status t) s) filtered
    | None => filtered
    end in
  let filtered :=
    match TaskFilter.priority self with
    | Some p => List.filter (fun t => Priority_eqb (priority t) p) filtered
    | None => filtered
    end in
  let filtered :=
    match TaskFilter.category self with
    | Some c => List.filter (fun t => String.eqb (category t) c) filtered
    | None => filtered
    end in
  let! filtered :=
    (if TaskFilter.overdue_only self
     then comprehension (fun t => let! v := is_overdue t in ret (truth v)) filtered
     else ret filtered) in
  match TaskFilter.due_in_days self with
  | Some n => comprehension (due_within n) filtered
  | None => ret filtered
  end.

(** ** TaskManager *)

Context {N : Type} `{Notification N}.

Definition read {A} (f : State N -> A) : M (State N) A := fun s => (Ok (f s), s).

Definition put_tasks (v : list Task) : M (State N) unit :=
  fun s => (Ok tt, mk_State v (changelog s) (notification s) (ticks s)
                     (storage s) (stdout s)).

Definition put_changelog (v : ChangeLog) : M (State N) unit :=
  fun s => (Ok tt, mk_State (tasks s) v (notification s) (ticks s)
                     (storage s) (stdout s)).

Definition put_storage (v : option file) : M (State N) unit :=
  fun s => (Ok tt, mk_State (tasks s) (changelog s) (notification s) (ticks s)
                     v (stdout s)).

Definition print (o : output) : M (State N) unit :=
  fun s => (Ok tt, mk_State (tasks s) (changelog s) (notification s) (ticks s)
                     (storage s) (stdout s ++ [o])%list).

(** Run a computation that reads the clock. *)
Definition with_clock {A} (c : M nat A) : M (State N) A :=
  fun s =>
    let (r, k) := c (ticks s) in
    (r, mk_State (tasks s) (changelog s) (notification s) k
          (storage s) (stdout s)).

(** [self.notification.send(message)] *)
Definition notify (message : string) : M (State N) unit :=
  fun s =>
    let (n, out) := send (notification s) message (stdout s) in
    (Ok tt, mk_State (tasks s) (changelog s) n (ticks s) (storage s) out).

(** [self.changelog.add_change(action, task_data)] *)
Definition log_change (action : string) (task_data : json) : M (State N) unit :=
  let! log := read changelog in
  let! log := with_clock (add_change log action task_data None) in
  put_changelog log.

(** The document written by [save_data] *)
Definition dump (s : State N) : json :=
  JDict [("tasks", JList (map to_dict (tasks s)));
         ("changelog", ChangeLog_to_dict (changelog s))].

(** [TaskManager.save_data]: the file is created or truncated and holds the
    whole current state. *)
Definition save_data : M (State N) unit :=
  let! data := read dump in
  put_storage (Some (Document data)).

(** [0 <= task_id < len(self.tasks)] *)
Definition in_bounds (task_id : Z) (ts : list Task) : bool :=
  (0 <=? task_id) && (task_id <? Z.of_nat (length ts)).

(** The task object at [task_id] is mutated in place: the list holds the
    new value at that index. *)
Definition store_task (task_id : Z) (task : Task) : M (State N) unit :=
  let! ts := read tasks in
  put_tasks (<[Z.to_nat task_id := task]> ts).

(** [TaskManager.add_task] *)
Definition add_task (task : Task) : M (State N) Task :=
  let! ts := read tasks in
  let! _ := put_tasks (ts ++ [task])%list in
  let! _ := log_change "CREATE" (to_dict task) in
  let! _ := save_data in
  let! _ := notify ("Task added: " ++ title task) in
  ret task.

(** [TaskManager.update_task]; in the branch guarded by [in_bounds] the
    lookup always finds a task. *)
Definition update_task (task_id : Z) (kwargs : list kwarg)
  : M (State N) (option Task) :=
  let! ts := read tasks in
  if in_bounds task_id ts then
    match ts !! Z.to_nat task_id with
    | Some task =>
        let old_data := to_dict task in
        let! task := with_clock (update task kwargs) in
        let! _ := store_task task_id task in
        let! _ := log_change "UPDATE"
                    (JDict [("old", old_data); ("new", to_dict task)]) in
        let! _ := save_data in
        let! _ := notify ("Task updated: " ++ title task) in
        ret (Some task)
    | None => ret None
    end
  else ret None.

(** [TaskManager.delete_task] *)
Definition delete_task (task_id : Z) : M (State N) bool :=
  let! ts := read tasks in
  if in_bounds task_id ts then
    match ts !! Z.to_nat task_id with
    | Some task =>
        let task := set_status DELETED task in
        let! _ := store_task task_id task in
        let! _ := log_change "DELETE" (to_dict task) in
        let! _ := save_data in
        let! _ := notify ("Task deleted: " ++ title task) in
        ret true
    | None => ret false
    end
  else ret false.

(** [TaskManager.complete_task] *)
Definition complete_task (task_id : Z) : M (State N) (option Task) :=
  let! ts := read tasks in
  if in_bounds task_id ts then
    match ts !! Z.to_nat task_id with
    | Some task =>
        let! task := with_clock (mark_as_completed task) in
        let! _ := store_task task_id task in
        let! _ := log_change "COMPLETE" (to_dict task) in
        let! _ := save_data in
        let! _ := notify ("Task completed: " ++ title task) in
        ret (Some task)
    | None => ret None
    end
  else ret None.

(** [TaskManager.archive_task] *)
Definition archive_task (task_id : Z) : M (State N) (option Task) :=
  let! ts := read tasks in
  if in_bounds task_id ts then
    match ts !! Z.to_nat task_id with
    | Some task =>
        let! task := with_clock (archive task) in
        let! _ := store_task task_id task in
        let! _ := log_change "ARCHIVE" (to_dict task) in
        let! _ := save_data in
        ret (Some task)
    | None => ret None
    end
  else ret None.

(** [TaskManager.get_task] *)
Definition get_task (task_id : Z) : M (State N) (option Task) :=
  let! ts := read tasks in
  if in_bounds task_id ts then ret (ts !! Z.to_nat task_id) else ret None.

(** [TaskManager.filter_tasks] *)
Definition filter_tasks (task_filter : TaskFilter.t) : M (State N) (list Task) :=
  let! ts := read tasks in
  with_clock (TaskFilter_apply task_filter ts).

(** [TaskManager.get_upcoming_tasks] *)
Definition get_upcoming_tasks (days : Z) : M (State N) (list Task) :=
  filter_tasks (TaskFilter.mk (Some PENDING) None None false (Some days)).

(** [TaskManager.get_overdue_tasks] *)
Definition get_overdue_tasks : M (State N) (list Task) :=
  filter_tasks (TaskFilter.mk (Some PENDING) None None true None).

(** [json.load(f)] *)
Definition json_load (f : file) : result json :=
  match f with
  | Corrupt => Raise JSONDecodeError
  | Document data => Ok data
  end.

(** [[Task.from_dict(task_data) for task_data in l]] *)
Fixpoint from_dicts (l : list json) : M nat (list Task) :=
  match l with
  | [] => ret []
  | task_data :: rest =>
      let! task := from_dict task_data in
      let! tasks := from_dicts rest in
      ret (task :: tasks)
  end.

(** [TaskManager.load_data] *)
Definition load_data : M (State N) unit :=
  let! f := read storage in
  match f with
  | None => ret tt
  | Some f =>
      try_except
        (let! data := lift_result (json_load f) in
         let! v := lift_result (get data "tasks" (JList [])) in
         let! l := lift_result (iter v) in
         let! ts := with_clock (from_dicts l) in
         let! _ := put_tasks ts in
         let! v := lift_result (get data "changelog" (JList [])) in
         let! log := lift_result (ChangeLog_from_dict v) in
         put_changelog log)
        (fun e =>
           let! _ := print (LoadError e) in
           let! _ := put_tasks [] in
           put_changelog (mk_ChangeLog []))
  end.

(** [TaskManager.__init__] in a world with the given clock position, storage
    and standard output; [notification] is the sink the manager ends up
    with, the one passed or the default [ConsoleNotification]. *)
Definition TaskManager_init (notification : N) (k : nat) (disk : option file)
    (out : list output) : result unit * State N :=
  load_data (mk_State [] (mk_ChangeLog []) notification k disk out).

(** ** States reached by the manager's operations *)

(** The state after the four steps shared by the operations on an existing
    task: store the task, log the change, save. *)
Definition logged (s : State N) (task_id : Z) (task : Task) (action : string)
    (task_data : json) : State N :=
  let ts := <[Z.to_nat task_id := task]> (tasks s) in
  let log := mk_ChangeLog
               (changes (changelog s)
                ++ [mk_entry action task_data (clock (ticks s))])%list in
  mk_State ts log (notification s) (S (ticks s))
    (Some (Document (JDict [("tasks", JList (map to_dict ts));
                            ("changelog", ChangeLog_to_dict log)])))
    (stdout s).

Definition advance (k : nat) (s : State N) : State N :=
  mk_State (tasks s) (changelog s) (notification s) (k + ticks s)
    (storage s) (stdout s).

Definition notified (message : string) (s : State N) : State N :=
  mk_State (tasks s) (changelog s)
    (fst (send (notification s) message (stdout s))) (ticks s) (storage s)
    (snd (send (notification s) message (stdout s))).

End Program.

(** ** Vocabulary of the properties *)

(** A clock that never goes backwards. *)
Definition monotone (clock : nat -> datetime) : Prop :=
  forall i j : nat, (i <= j)%nat -> dt_leb (clock i) (clock j) = true.

(** A clock that shows the same time at every reading. *)
Definition frozen (clock : nat -> datetime) (now : datetime) : Prop :=
  forall k : nat, clock k = now.

(** A clock that advances by one microsecond at every reading. *)
Definition tick_clock (k : nat) : datetime :=
  mk_datetime 2024 1 1 0 0 0 (Z.of_nat k).

Definition names_created_at (kw : kwarg) : bool :=
  match kw with
  | kw_created_at _ => true
  | _ => false
  end.

(** The operations that change a task: the three mutating methods of [Task]
    and the assignment [task.status = TaskStatus.DELETED] of [delete_task]. *)
Inductive task_op :=
| op_update (kwargs : list kwarg)
| op_mark_as_completed
| op_archive
| op_delete.

Definition run_op (clock : nat -> datetime) (self : Task) (op : task_op)
  : M nat Task :=
  match op with
  | op_update kwargs => update clock self kwargs
  | op_mark_as_completed => mark_as_completed clock self
  | op_archive => archive clock self
  | op_delete => ret (set_status DELETED self)
  end.

Fixpoint run_ops (clock : nat -> datetime) (self : Task) (ops : list task_op)
  : M nat Task :=
  match ops with
  | [] => ret self
  | op :: rest =>
      let! self := run_op clock self op in
      run_ops clock self rest
  end.

Definition op_keeps_created_at (op : task_op) : bool :=
  match op with
  | op_update kwargs => forallb (fun kw => negb (names_created_at kw)) kwargs
  | _ => true
  end.

(** The mutating operations of the manager, as the console issues them; a
    task is constructed just before it is added. *)
Inductive command :=
| cmd_add (title description : string) (due_date : option datetime)
    (priority : Priority) (category : string)
| cmd_update (task_id : Z) (kwargs : list kwarg)
| cmd_delete (task_id : Z)
| cmd_complete (task_id : Z)
| cmd_archive (task_id : Z).

Definition run_command {N : Type} `{Notification N} (clock : nat -> datetime)
    (c : command) : M (State N) unit :=
  match c with
  | cmd_add title description due_date priority category =>
      let! task :=
        with_clock (Task_init clock title description due_date priority category) in
      let! _ := add_task clock task in
      ret tt
  | cmd_update task_id kwargs =>
      let! _ := update_task clock task_id kwargs in ret tt
  | cmd_delete task_id =>
      let! _ := delete_task clock task_id in ret tt
  | cmd_complete task_id =>
      let! _ := complete_task clock task_id in ret tt
  | cmd_archive task_id =>
      let! _ := archive_task clock task_id in ret tt
  end.

Fixpoint run_commands {N : Type} `{Notification N} (clock : nat -> datetime)
    (cs : list command) : M (State N) unit :=
  match cs with
  | [] => ret tt
  | c :: rest =>
      let! _ := run_command clock c in
      run_commands clock rest
  end.

Definition command_keeps_created_at (c : command) : bool :=
  match c with
  | cmd_update _ kwargs => forallb (fun kw => negb (names_created_at kw)) kwargs
  | _ => true
  end.

(** A datetime whose year [strftime] writes with the four digits that
    [strptime] asks for. *)
Definition four_digit_year (t : datetime) : bool := 1000 <=? dt_year t.

(** A datetime that the format [%Y-%m-%d %H:%M:%S] writes in full, and one
    that [%Y-%m-%d] writes in full. *)
Definition whole_seconds (t : datetime) : bool :=
  valid_datetime t && (dt_microsecond t =? 0).

Definition midnight (t : datetime) : bool :=
  whole_seconds t && (dt_hour t =? 0) && (dt_minute t =? 0)
  && (dt_second t =? 0).

Definition opt_forall {A} (p : A -> bool) (o : option A) : bool :=
  match o with
  | Some a => p a
  | None => true
  end.

(** A task whose flat record holds all of its timestamps. *)
Definition wire_exact (t : Task) : bool :=
  whole_seconds (created_at t) && whole_seconds (updated_at t)
  && opt_forall whole_seconds (completed_at t)
  && opt_forall midnight (due_date t).

(** A task all of whose dates have a year of four digits. *)
Definition four_digit_years (t : Task) : bool :=
  four_digit_year (created_at t) && four_digit_year (updated_at t)
  && opt_forall four_digit_year (completed_at t)
  && opt_forall four_digit_year (due_date t).

(** The predicates of a filter in the words of the specification, at a
    given time [now]. *)
Definition spec_overdue (now : datetime) (t : Task) : bool :=
  match due_date t with
  | Some d => dt_ltb d now && negb (TaskStatus_eqb (status t) COMPLETED)
  | None => false
  end.

Definition spec_due_in_days (now : datetime) (n : Z) (t : Task) : bool :=
  match due_date t with
  | Some d => (0 <=? timedelta_days d now) && (timedelta_days d now <=? n)
  | None => false
  end.

Definition spec_matches (now : datetime) (f : TaskFilter.t) (t : Task) : bool :=
  opt_eqb TaskStatus_eqb (status t) (TaskFilter.status f)
  && opt_eqb Priority_eqb (priority t) (TaskFilter.priority f)
  && opt_eqb String.eqb (category t) (TaskFilter.category f)
  && (if TaskFilter.overdue_only f then spec_overdue now t else true)
  && opt_forall (fun n => spec_due_in_days now n t) (TaskFilter.due_in_days f).

(** A storage file with one task whose [created_at] is not a date. *)
Definition bad_date_file : file :=
  Document
    (JDict
       [("tasks",
         JList [JDict [("title", JStr "Buy milk");
                       ("created_at", JStr "yesterday");
                       ("updated_at", JStr "2024-01-01 00:00:00")]]);
        ("changelog", JList [])]).

(** [kept P l r]: [r] is [l] without the elements that fail [P], in the
    order of [l]. *)
Inductive kept {A} (P : A -> Prop) : list A -> list A -> Prop :=
| kept_nil : kept P [] []
| kept_take x l r : P x -> kept P l r -> kept P (x :: l) (x :: r)
| kept_skip x l r : ~ P x -> kept P l r -> kept P (x :: l) r.

(** A manager holding one task, with a sink that records what it is sent. *)
Definition example_task : Task :=
  mk_Task "Buy milk" "" None MEDIUM "General" PENDING
    (tick_clock 0) (tick_clock 1) None.

Definition example_state : State (list string) :=
  mk_State [example_task] (mk_ChangeLog []) [] 2%nat None [].

(** A clock that always shows the first of January 2024, midnight. *)
Definition still_clock (k : nat) : datetime := mk_datetime 2024 1 1 0 0 0 0.

(** A task whose timestamps have no fraction of a second and whose due
    date has no time of day. *)
Definition stored_task : Task :=
  mk_Task "Pay rent" "monthly" (Some (mk_datetime 2024 3 1 0 0 0 0)) HIGH
    "Home" COMPLETED (mk_datetime 2024 2 1 9 30 0 0)
    (mk_datetime 2024 2 28 18 5 7 0) (Some (mk_datetime 2024 2 28 18 5 7 0)).

(** The invariant of a task at the [k]-th reading of the clock: it was
    created no later than it was last updated, and no later than now. *)
Definition task_inv (clock : nat -> datetime) (k : nat) (t : Task) : Prop :=
  dt_leb (created_at t) (updated_at t) = true
  /\ dt_leb (created_at t) (clock k) = true.

Definition state_inv {N : Type} (clock : nat -> datetime) (s : State N) : Prop :=
  Forall (task_inv clock (ticks s)) (tasks s).

(** A storage file with one well-formed task and one change log entry whose
    [timestamp] is not a date. *)
Definition bad_log_date_file : file :=
  Document
    (JDict
       [("tasks", JList [to_dict stored_task]);
        ("changelog",
         JList [JDict [("action", JStr "CREATE");
                       ("task_data", to_dict stored_task);
                       ("timestamp", JStr "2024-02-30 10:00:00")]])]).

(** ** The rest of the core: display labels, categories *)

(** [str.capitalize] on ASCII letters: the first character in upper case,
    the others in lower case. *)
Definition upper (c : ascii) : ascii :=
  let n := nat_of_ascii c in
  if (97 <=? n)%nat && (n <=? 122)%nat then ascii_of_nat (n - 32) else c.

Definition lower (c : ascii) : ascii :=
  let n := nat_of_ascii c in
  if (65 <=? n)%nat && (n <=? 90)%nat then ascii_of_nat (n + 32) else c.

Fixpoint lower_all (s : string) : string :=
  match s with
  | EmptyString => EmptyString
  | String c rest => String (lower c) (lower_all rest)
  end.

Definition capitalize (s : string) : string :=
  match s with
  | EmptyString => EmptyString
  | String c rest => String (upper c) (lower_all rest)
  end.

(** [Priority.__str__] and [TaskStatus.__str__] *)
Definition Priority_str (p : Priority) : string := capitalize (Priority_name p).

Definition TaskStatus_str (s : TaskStatus) : string :=
  capitalize (TaskStatus_name s).

(** [TaskManager.get_categories]: the elements of a set of strings, in an
    order that the code does not fix. *)
Definition get_categories {N : Type} : M (State N) (list string) :=
  let! ts := read tasks in
  ret (elements (list_to_set (map category ts) : gset string)).

(** ** Vocabulary of the further properties *)

(** What the two formats keep of a datetime. *)
Definition drop_microsecond (t : datetime) : datetime :=
  mk_datetime (dt_year t) (dt_month t) (dt_day t)
    (dt_hour t) (dt_minute t) (dt_second t) 0.

Definition drop_time (t : datetime) : datetime :=
  mk_datetime (dt_year t) (dt_month t) (dt_day t) 0 0 0 0.

(** The task that the flat record of a task describes. *)
Definition on_wire (t : Task) : Task :=
  mk_Task (title t) (description t) (option_map drop_time (due_date t))
    (priority t) (category t) (status t)
    (drop_microsecond (created_at t)) (drop_microsecond (updated_at t))
    (option_map drop_microsecond (completed_at t)).

Definition entry_on_wire (e : entry) : entry :=
  mk_entry (action e) (task_data e) (drop_microsecond (timestamp e)).

(** The datetimes of a task are values that Python's constructor builds. *)
Definition valid_task (t : Task) : bool :=
  valid_datetime (created_at t) && valid_datetime (updated_at t)
  && opt_forall valid_datetime (completed_at t)
  && opt_forall valid_datetime (due_date t).

(** A keyword of [kwargs] sets the attribute called [key]. *)
Definition mentions (key : string) (kwargs : list kwarg) : bool :=
  existsb (fun kw => hasattr kw && String.eqb (kw_key kw) key) kwargs.

(** The storage file holds the state of the manager; before the first save
    of a manager that found no file, there is no file and no state. *)
Definition synced {N : Type} (s : State N) : Prop :=
  storage s = Some (Document (dump s))
  \/ (storage s = None /\ tasks s = [] /\ changes (changelog s) = []).

Definition is_add (c : command) : bool :=
  match c with
  | cmd_add _ _ _ _ _ => true
  | _ => false
  end.

(** The actions that the manager writes to the change log. *)
Definition manager_actions : list string :=
  ["CREATE"; "UPDATE"; "DELETE"; "COMPLETE"; "ARCHIVE"].

(** * Properties *)

(** ** Digits and the two wire formats *)

Example strptime_ex1 :
  strptime_datetime "2024-02-29 23:59:07" = Some (mk_datetime 2024 2 29 23 59 7 0).
Proof. reflexivity. Qed.

Example strptime_ex2 : strptime_datetime "2023-02-29 23:59:07" = None.
Proof. reflexivity. Qed.

Example strftime_ex1 :
  strftime_datetime (mk_datetime 2024 2 29 23 59 7 123) = "2024-02-29 23:59:07".
Proof. reflexivity. Qed.

(** A year below 1000 is written with fewer than four digits, and what is
    written is then not read back, although the padded form is. *)
Example strftime_short_year :
  strftime_date (mk_datetime 999 1 1 0 0 0 0) = "999-01-01"
  /\ strptime_date "999-01-01" = None
  /\ strptime_date "0999-01-01" = Some (mk_datetime 999 1 1 0 0 0 0).
Proof. repeat split; reflexivity. Qed.

Example from_dict_short_year :
  from_dict tick_clock
    (to_dict (set_due_date (Some (mk_datetime 999 1 1 0 0 0 0)) stored_task))
    0%nat
  = (Raise ValueError, 0%nat).
Proof. reflexivity. Qed.

Lemma digit_char_cases (n : Z) :
  let c := digit_char n in
  is_digit c = true /\ digit_val c = n mod 10
  /\ is_space c = false /\ Ascii.eqb c " " = false.
Proof.
  unfold digit_char.
  assert (Hr : 0 <= n mod 10 < 10) by (apply Z.mod_pos_bound; lia).
  assert (Hc : n mod 10 = 0 \/ n mod 10 = 1 \/ n mod 10 = 2 \/ n mod 10 = 3
               \/ n mod 10 = 4 \/ n mod 10 = 5 \/ n mod 10 = 6
               \/ n mod 10 = 7 \/ n mod 10 = 8 \/ n mod 10 = 9) by lia.
  clear Hr.
  repeat (destruct Hc as [Hc | Hc]; [rewrite Hc; vm_compute; auto |]).
  rewrite Hc; vm_compute; auto.
Qed.

Lemma is_digit_digit_char n : is_digit (digit_char n) = true.
Proof. apply (digit_char_cases n). Qed.

Lemma digit_val_digit_char n : digit_val (digit_char n) = n mod 10.
Proof. apply (digit_char_cases n). Qed.

Lemma is_space_digit_char n : is_space (digit_char n) = false.
Proof. apply (digit_char_cases n). Qed.

Lemma eqb_space_digit_char n : Ascii.eqb (digit_char n) " " = false.
Proof. apply (digit_char_cases n). Qed.

Lemma read_num2_pad2 (n : Z) (k : string) :
  0 <= n < 100 -> no_digit_head k = true ->
  read_num2 (pad2 n k) = Some (n, k).
Proof.
  intros Hn Hk. unfold read_num2, pad2.
  rewrite !is_digit_digit_char, !digit_val_digit_char.
  assert (E : n / 10 mod 10 * 10 + n mod 10 = n) by
    (Z.to_euclidean_division_equations; lia).
  rewrite E. reflexivity.
Qed.

Lemma read_day_pad2 (n : Z) (k : string) :
  0 <= n < 100 -> no_digit_head k = true ->
  read_day (pad2 n k) = Some (n, k).
Proof.
  intros Hn Hk. rewrite <- (read_num2_pad2 n k Hn Hk).
  unfold read_day, pad2. rewrite eqb_space_digit_char. reflexivity.
Qed.

Lemma read_year_pad4 (n : Z) (k : string) :
  0 <= n < 10000 -> read_year (pad4 n k) = Some (n, k).
Proof.
  intros Hn. unfold read_year, pad4, pad2.
  rewrite !is_digit_digit_char, !digit_val_digit_char. simpl.
  assert (E : n / 1000 mod 10 * 1000 + n / 100 mod 10 * 100
              + n / 10 mod 10 * 10 + n mod 10 = n) by
    (Z.to_euclidean_division_equations; lia).
  rewrite E. reflexivity.
Qed.

Lemma in_range_spec lo x hi : in_range lo x hi = true <-> lo <= x <= hi.
Proof. unfold in_range. rewrite andb_true_iff, !Z.leb_le. tauto. Qed.

Lemma days_in_month_le (y m : Z) : days_in_month y m <= 31.
Proof.
  unfold days_in_month.
  destruct ((m =? 2) && is_leap y); [lia |].
  destruct m as [| p | p]; try lia.
  do 4 (try (destruct p as [p | p |]); try lia).
Qed.

Lemma valid_date_spec (y m d : Z) :
  valid_date y m d = true <->
  1 <= y <= 9999 /\ 1 <= m <= 12 /\ 1 <= d <= days_in_month y m.
Proof.
  unfold valid_date. rewrite !andb_true_iff, !in_range_spec. tauto.
Qed.

Lemma valid_datetime_spec (t : datetime) :
  valid_datetime t = true <->
  valid_date (dt_year t) (dt_month t) (dt_day t) = true
  /\ 0 <= dt_hour t <= 23 /\ 0 <= dt_minute t <= 59
  /\ 0 <= dt_second t <= 59 /\ 0 <= dt_microsecond t <= 999999.
Proof.
  unfold valid_datetime. rewrite !andb_true_iff, !in_range_spec. tauto.
Qed.

Lemma read_date_strftime (t : datetime) (k : string) :
  four_digit_year t = true ->
  valid_date (dt_year t) (dt_month t) (dt_day t) = true ->
  no_digit_head k = true ->
  read_date (strftime_date_k t k)
  = Some (dt_year t, dt_month t, dt_day t, k).
Proof.
  intros H4 Hv Hk. pose proof Hv as Hb. apply valid_date_spec in Hb.
  destruct Hb as (Hy & Hm & Hd).
  pose proof (days_in_month_le (dt_year t) (dt_month t)) as Hle.
  unfold read_date, strftime_date_k, year_digits.
  unfold four_digit_year in H4. rewrite H4.
  rewrite read_year_pad4 by lia. cbn [expect Ascii.eqb Bool.eqb].
  rewrite read_num2_pad2 by (reflexivity || lia). cbn [expect Ascii.eqb Bool.eqb].
  rewrite read_day_pad2 by (assumption || lia).
  rewrite Hv. reflexivity.
Qed.

Lemma read_time_pad (h mi sec : Z) :
  0 <= h <= 23 -> 0 <= mi <= 59 -> 0 <= sec <= 59 ->
  read_time (pad2 h (String ":" (pad2 mi (String ":" (pad2 sec "")))))
  = Some (h, mi, sec, "").
Proof.
  intros Hh Hm Hs. unfold read_time.
  rewrite read_num2_pad2 by (reflexivity || lia). cbn [expect Ascii.eqb Bool.eqb].
  rewrite read_num2_pad2 by (reflexivity || lia). cbn [expect Ascii.eqb Bool.eqb].
  rewrite read_num2_pad2 by (reflexivity || lia).
  assert (E : in_range 0 h 23 && in_range 0 mi 59 && in_range 0 sec 59 = true)
    by (rewrite !andb_true_iff, !in_range_spec; lia).
  rewrite E. reflexivity.
Qed.

(** Parsing what [strftime] wrote gives back the datetime, up to the parts
    that the format does not write. *)
Lemma strptime_datetime_strftime (t : datetime) :
  four_digit_year t = true ->
  valid_datetime t = true -> dt_microsecond t = 0 ->
  strptime_datetime (strftime_datetime t) = Some t.
Proof.
  intros H4 Hv Hus. apply valid_datetime_spec in Hv.
  destruct Hv as (Hd & Hh & Hm & Hs & _).
  unfold strptime_datetime, strftime_datetime.
  rewrite read_date_strftime by (assumption || reflexivity).
  unfold read_spaces. change (is_space " ") with true. cbv iota.
  unfold pad2 at 1. cbn [skip_spaces]. rewrite is_space_digit_char.
  fold (pad2 (dt_hour t)
          (String ":" (pad2 (dt_minute t) (String ":" (pad2 (dt_second t) ""))))).
  rewrite read_time_pad by assumption.
  destruct t; simpl in *; subst; reflexivity.
Qed.

Lemma strptime_date_strftime (t : datetime) :
  four_digit_year t = true ->
  valid_datetime t = true ->
  dt_hour t = 0 -> dt_minute t = 0 -> dt_second t = 0 -> dt_microsecond t = 0 ->
  strptime_date (strftime_date t) = Some t.
Proof.
  intros Hy Hv H1 H2 H3 H4. apply valid_datetime_spec in Hv.
  destruct Hv as (Hd & _).
  unfold strptime_date, strftime_date.
  rewrite read_date_strftime by (assumption || reflexivity).
  destruct t; simpl in *; subst; reflexivity.
Qed.

(** ** Order on datetimes *)

Lemma lex_cmp_refl (l : list Z) : lex_cmp l l = Eq.
Proof.
  induction l as [| x l IH]; simpl; [reflexivity |].
  rewrite Z.compare_refl. exact IH.
Qed.

Lemma lex_cmp_antisym (a b : list Z) : lex_cmp b a = CompOpp (lex_cmp a b).
Proof.
  revert b. induction a as [| x a IH]; intros [| y b]; simpl; try reflexivity.
  rewrite (Z.compare_antisym x y).
  destruct (x ?= y); simpl; auto.
Qed.

Lemma lex_cmp_le_trans (a b c : list Z) :
  lex_cmp a b <> Gt -> lex_cmp b c <> Gt -> lex_cmp a c <> Gt.
Proof.
  revert b c. induction a as [| x a IH]; intros [| y b] [| z c]; simpl;
    try congruence.
  destruct (Z.compare_spec x y), (Z.compare_spec y z), (Z.compare_spec x z);
    subst; try congruence; try lia; eauto.
Qed.

Lemma dt_leb_refl (t : datetime) : dt_leb t t = true.
Proof. unfold dt_leb, dt_cmp. rewrite lex_cmp_refl. reflexivity. Qed.

Lemma dt_leb_spec (a b : datetime) : dt_leb a b = true <-> dt_cmp a b <> Gt.
Proof. unfold dt_leb. destruct (dt_cmp a b); split; congruence. Qed.

Lemma dt_leb_trans (a b c : datetime) :
  dt_leb a b = true -> dt_leb b c = true -> dt_leb a c = true.
Proof. rewrite !dt_leb_spec. apply lex_cmp_le_trans. Qed.

Lemma dt_ltb_leb (a b : datetime) : dt_ltb a b = negb (dt_leb b a).
Proof.
  unfold dt_ltb, dt_leb, dt_cmp. rewrite (lex_cmp_antisym (dt_key a) (dt_key b)).
  destruct (lex_cmp (dt_key a) (dt_key b)); reflexivity.
Qed.

(** ** The calendar: a smaller datetime has a smaller ordinal *)

Lemma is_leap_spec (y : Z) :
  is_leap y = true <-> y mod 4 = 0 /\ (y mod 100 <> 0 \/ y mod 400 = 0).
Proof.
  unfold is_leap.
  rewrite andb_true_iff, orb_true_iff, negb_true_iff, !Z.eqb_eq, Z.eqb_neq.
  tauto.
Qed.

Lemma days_before_year_succ (y : Z) :
  days_before_year (y + 1)
  = days_before_year y + (if is_leap y then 366 else 365).
Proof.
  unfold days_before_year. replace (y + 1 - 1) with y by lia.
  destruct (is_leap y) eqn:E.
  - apply is_leap_spec in E. cbv zeta.
    Z.to_euclidean_division_equations; lia.
  - assert (E' : ~ (y mod 4 = 0 /\ (y mod 100 <> 0 \/ y mod 400 = 0))).
    { intros C. apply is_leap_spec in C. congruence. }
    cbv zeta. Z.to_euclidean_division_equations; lia.
Qed.

Lemma days_before_year_mono (y1 y2 : Z) :
  y1 <= y2 -> days_before_year y1 <= days_before_year y2.
Proof.
  intros Hy. unfold days_before_year. cbv zeta.
  Z.to_euclidean_division_equations; lia.
Qed.

Ltac month_cases m H :=
  let C := fresh "C" in
  assert (C : m = 1 \/ m = 2 \/ m = 3 \/ m = 4 \/ m = 5 \/ m = 6 \/ m = 7
              \/ m = 8 \/ m = 9 \/ m = 10 \/ m = 11 \/ m = 12) by lia;
  clear H;
  repeat (destruct C as [C | C]; [subst m |]); [.. | subst m].

Lemma day_of_year_bound (y m d : Z) :
  valid_date y m d = true ->
  1 <= days_before_month y m + d <= (if is_leap y then 366 else 365).
Proof.
  intros Hv. apply valid_date_spec in Hv. destruct Hv as (_ & Hm & Hd).
  revert Hd. unfold days_before_month, days_in_month.
  month_cases m Hm; destruct (is_leap y); simpl; lia.
Qed.

Lemma day_of_year_lt (y m1 d1 m2 d2 : Z) :
  valid_date y m1 d1 = true -> valid_date y m2 d2 = true -> m1 < m2 ->
  days_before_month y m1 + d1 < days_before_month y m2 + d2.
Proof.
  intros H1 H2 Hlt.
  apply valid_date_spec in H1. destruct H1 as (_ & Hm1 & Hd1).
  apply valid_date_spec in H2. destruct H2 as (_ & Hm2 & Hd2).
  revert Hd1 Hd2 Hlt. unfold days_before_month, days_in_month.
  month_cases m1 Hm1; month_cases m2 Hm2; destruct (is_leap y); simpl; lia.
Qed.

Lemma ymd2ord_lt (y1 m1 d1 y2 m2 d2 : Z) :
  valid_date y1 m1 d1 = true -> valid_date y2 m2 d2 = true ->
  lex_cmp [y1; m1; d1] [y2; m2; d2] = Lt ->
  ymd2ord y1 m1 d1 < ymd2ord y2 m2 d2.
Proof.
  intros H1 H2. unfold ymd2ord. simpl.
  destruct (Z.compare_spec y1 y2) as [-> | Hy | Hy]; try discriminate.
  - destruct (Z.compare_spec m1 m2) as [-> | Hm | Hm]; try discriminate.
    + destruct (Z.compare_spec d1 d2); try discriminate. lia.
    + intros _. pose proof (day_of_year_lt y2 m1 d1 m2 d2 H1 H2 Hm). lia.
  - intros _.
    pose proof (day_of_year_bound _ _ _ H1) as B1.
    pose proof (day_of_year_bound _ _ _ H2) as B2.
    pose proof (days_before_year_succ y1) as S1.
    pose proof (days_before_year_mono (y1 + 1) y2 ltac:(lia)) as M.
    destruct (is_leap y1), (is_leap y2); lia.
Qed.

Lemma lex_cmp_app (a b c d : list Z) :
  length a = length b ->
  lex_cmp (a ++ c) (b ++ d)
  = match lex_cmp a b with Eq => lex_cmp c d | r => r end.
Proof.
  revert b. induction a as [| x a IH]; intros [| y b] Hl; simpl in *;
    try discriminate; [reflexivity |].
  destruct (x ?= y); auto.
Qed.

Lemma lex_cmp_eq (a b : list Z) : lex_cmp a b = Eq -> a = b.
Proof.
  revert b. induction a as [| x a IH]; intros [| y b]; simpl;
    try discriminate; [reflexivity |].
  destruct (Z.compare_spec x y); try discriminate.
  intros E. subst. f_equal. auto.
Qed.

Lemma dt_cmp_eq (a b : datetime) : dt_cmp a b = Eq -> a = b.
Proof.
  intros E. apply lex_cmp_eq in E. destruct a, b. unfold dt_key in E.
  simpl in E. congruence.
Qed.

Lemma dt_ltb_sub_neg (a b : datetime) :
  valid_datetime a = true -> valid_datetime b = true ->
  dt_ltb a b = true -> dt_sub_us a b < 0.
Proof.
  intros Ha Hb.
  apply valid_datetime_spec in Ha. destruct Ha as (Va & Ha1 & Ha2 & Ha3 & Ha4).
  apply valid_datetime_spec in Hb. destruct Hb as (Vb & Hb1 & Hb2 & Hb3 & Hb4).
  unfold dt_ltb, dt_cmp, dt_sub_us, dt_ordinal, dt_seconds, us_per_day.
  destruct a as [y1 m1 d1 h1 i1 s1 u1], b as [y2 m2 d2 h2 i2 s2 u2].
  unfold dt_key. simpl in Va, Vb, Ha1, Ha2, Ha3, Ha4, Hb1, Hb2, Hb3, Hb4.
  cbn [dt_year dt_month dt_day dt_hour dt_minute dt_second dt_microsecond].
  change (lex_cmp [y1; m1; d1; h1; i1; s1; u1] [y2; m2; d2; h2; i2; s2; u2])
    with (lex_cmp ([y1; m1; d1] ++ [h1; i1; s1; u1])
                  ([y2; m2; d2] ++ [h2; i2; s2; u2])).
  rewrite lex_cmp_app by reflexivity.
  destruct (lex_cmp [y1; m1; d1] [y2; m2; d2]) eqn:E.
  - apply lex_cmp_eq in E. injection E as -> -> ->.
    simpl.
    destruct (Z.compare_spec h1 h2); try discriminate; [| lia].
    destruct (Z.compare_spec i1 i2); try discriminate; [| lia].
    destruct (Z.compare_spec s1 s2); try discriminate; [| lia].
    destruct (Z.compare_spec u1 u2); try discriminate. lia.
  - intros _. pose proof (ymd2ord_lt _ _ _ _ _ _ Va Vb E). lia.
  - discriminate.
Qed.

(** A due date in the past gives a negative number of days. *)
Lemma timedelta_days_neg (a b : datetime) :
  valid_datetime a = true -> valid_datetime b = true ->
  dt_ltb a b = true -> timedelta_days a b < 0.
Proof.
  intros Ha Hb Hlt. pose proof (dt_ltb_sub_neg a b Ha Hb Hlt) as Hneg.
  unfold timedelta_days. apply Z.div_lt_upper_bound; [reflexivity | lia].
Qed.

(** ** Execution of the manager's operations *)

Section Manager.

Variable clock : nat -> datetime.
Context {N : Type} `{Notification N}.

Lemma in_bounds_spec (task_id : Z) (ts : list Task) :
  in_bounds task_id ts = true <-> 0 <= task_id < Z.of_nat (length ts).
Proof. unfold in_bounds. rewrite andb_true_iff, Z.leb_le, Z.ltb_lt. tauto. Qed.

Lemma in_bounds_lookup (task_id : Z) (ts : list Task) :
  in_bounds task_id ts = true -> exists task, ts !! Z.to_nat task_id = Some task.
Proof.
  intros Hb. apply in_bounds_spec in Hb.
  apply lookup_lt_is_Some_2. lia.
Qed.

Lemma notify_run (message : string) (s : State N) :
  notify message s = (Ok tt, notified message s).
Proof.
  unfold notify, notified.
  destruct (send (notification s) message (stdout s)); reflexivity.
Qed.

Lemma update_task_run (task_id : Z) (kwargs : list kwarg) (s : State N)
    (task : Task) :
  in_bounds task_id (tasks s) = true ->
  tasks s !! Z.to_nat task_id = Some task ->
  update_task clock task_id kwargs s
  = let task' :=
      set_updated_at (clock (ticks s))
        (fold_left (fun self kw => if hasattr kw then setattr self kw else self)
           kwargs task) in
    (Ok (Some task'),
     notified ("Task updated: " ++ title task')
       (logged clock (advance 1 s) task_id task' "UPDATE"
          (JDict [("old", to_dict task); ("new", to_dict task')]))).
Proof.
  intros Hb Hl. unfold update_task, bind, read. rewrite Hb, Hl.
  cbn -[to_dict]. rewrite notify_run. reflexivity.
Qed.

Lemma delete_task_run (task_id : Z) (s : State N) (task : Task) :
  in_bounds task_id (tasks s) = true ->
  tasks s !! Z.to_nat task_id = Some task ->
  delete_task clock task_id s
  = let task' := set_status DELETED task in
    (Ok true,
     notified ("Task deleted: " ++ title task')
       (logged clock s task_id task' "DELETE" (to_dict task'))).
Proof.
  intros Hb Hl. unfold delete_task, bind, read. rewrite Hb, Hl.
  cbn -[to_dict]. rewrite notify_run. reflexivity.
Qed.

Lemma complete_task_run (task_id : Z) (s : State N) (task : Task) :
  in_bounds task_id (tasks s) = true ->
  tasks s !! Z.to_nat task_id = Some task ->
  complete_task clock task_id s
  = let task' :=
      set_updated_at (clock (S (ticks s)))
        (set_completed_at (Some (clock (ticks s)))
           (set_status COMPLETED task)) in
    (Ok (Some task'),
     notified ("Task completed: " ++ title task')
       (logged clock (advance 2 s) task_id task' "COMPLETE" (to_dict task'))).
Proof.
  intros Hb Hl. unfold complete_task, bind, read. rewrite Hb, Hl.
  cbn -[to_dict]. rewrite notify_run. reflexivity.
Qed.

Lemma archive_task_run (task_id : Z) (s : State N) (task : Task) :
  in_bounds task_id (tasks s) = true ->
  tasks s !! Z.to_nat task_id = Some task ->
  archive_task clock task_id s
  = let task' := set_updated_at (clock (ticks s)) (set_status ARCHIVED task) in
    (Ok (Some task'),
     logged clock (advance 1 s) task_id task' "ARCHIVE" (to_dict task')).
Proof.
  intros Hb Hl. unfold archive_task, bind, read. rewrite Hb, Hl.
  reflexivity.
Qed.

Lemma update_task_skip (task_id : Z) (kwargs : list kwarg) (s : State N) :
  in_bounds task_id (tasks s) = false ->
  update_task clock task_id kwargs s = (Ok None, s).
Proof. intros Hb. unfold update_task, bind, read. rewrite Hb. reflexivity. Qed.

Lemma delete_task_skip (task_id : Z) (s : State N) :
  in_bounds task_id (tasks s) = false ->
  delete_task clock task_id s = (Ok false, s).
Proof. intros Hb. unfold delete_task, bind, read. rewrite Hb. reflexivity. Qed.

Lemma complete_task_skip (task_id : Z) (s : State N) :
  in_bounds task_id (tasks s) = false ->
  complete_task clock task_id s = (Ok None, s).
Proof. intros Hb. unfold complete_task, bind, read. rewrite Hb. reflexivity. Qed.

Lemma archive_task_skip (task_id : Z) (s : State N) :
  in_bounds task_id (tasks s) = false ->
  archive_task clock task_id s = (Ok None, s).
Proof. intros Hb. unfold archive_task, bind, read. rewrite Hb. reflexivity. Qed.

Lemma add_task_run (task : Task) (s : State N) :
  add_task clock task s
  = (Ok task,
     notified ("Task added: " ++ title task)
       (let ts := (tasks s ++ [task])%list in
        let log := mk_ChangeLog
                     (changes (changelog s)
                      ++ [mk_entry "CREATE" (to_dict task) (clock (ticks s))])%list in
        mk_State ts log (notification s) (S (ticks s))
          (Some (Document (JDict [("tasks", JList (map to_dict ts));
                                  ("changelog", ChangeLog_to_dict log)])))
          (stdout s))).
Proof.
  unfold add_task, bind, read. cbn -[to_dict]. rewrite notify_run. reflexivity.
Qed.

End Manager.

(** ** Claims about the manager's operations *)

Lemma fold_unknown_kwargs (kwargs : list kwarg) (task : Task) :
  forallb (fun kw => negb (hasattr kw)) kwargs = true ->
  fold_left (fun self kw => if hasattr kw then setattr self kw else self)
    kwargs task = task.
Proof.
  revert task. induction kwargs as [| kw kwargs IH]; intros task Hk; simpl in *.
  - reflexivity.
  - apply andb_true_iff in Hk. destruct Hk as [Hkw Hrest].
    apply negb_true_iff in Hkw. rewrite Hkw. auto.
Qed.

Section ManagerClaims.

Variable clock : nat -> datetime.
Context {N : Type} `{Notification N}.

Lemma notified_sent (message : string) (s : State N) :
  (notification (notified message s), stdout (notified message s))
  = send (notification s) message (stdout s).
Proof.
  unfold notified. simpl. symmetry. apply surjective_pairing.
Qed.

Ltac sent_by_notified :=
  etransitivity; [apply notified_sent | reflexivity].

(** C6: [update_task] with an id outside [0, len(tasks)) returns [None] and
    leaves the whole state as it was: no task changes, no change log entry
    is appended, the storage file is not rewritten, nothing is sent. *)
Theorem update_task_out_of_range (task_id : Z) (kwargs : list kwarg)
    (s : State N) :
  ~ (0 <= task_id < Z.of_nat (length (tasks s))) ->
  update_task clock task_id kwargs s = (Ok None, s).
Proof.
  intros Hout. apply update_task_skip.
  destruct (in_bounds task_id (tasks s)) eqn:Hb; [| reflexivity].
  apply in_bounds_spec in Hb. contradiction.
Qed.

(** C7: [archive_task] on an id in range archives the task, appends an
    ARCHIVE entry, saves, and leaves the notification sink and standard
    output untouched; [update_task], [delete_task], [complete_task] and
    [add_task] each call [send] once. *)
Theorem archive_task_sends_nothing (task_id : Z) (s : State N) :
  0 <= task_id < Z.of_nat (length (tasks s)) ->
  (exists task' s',
      archive_task clock task_id s = (Ok (Some task'), s')
      /\ status task' = ARCHIVED
      /\ tasks s' !! Z.to_nat task_id = Some task'
      /\ (exists ts,
             changes (changelog s')
             = (changes (changelog s)
                ++ [mk_entry "ARCHIVE" (to_dict task') ts])%list)
      /\ storage s' = Some (Document (dump s'))
      /\ notification s' = notification s
      /\ stdout s' = stdout s)
  /\ (forall kwargs, exists task' s',
         update_task clock task_id kwargs s = (Ok (Some task'), s')
         /\ (notification s', stdout s')
            = send (notification s) ("Task updated: " ++ title task') (stdout s))
  /\ (exists task s',
         tasks s !! Z.to_nat task_id = Some task
         /\ delete_task clock task_id s = (Ok true, s')
         /\ (notification s', stdout s')
            = send (notification s) ("Task deleted: " ++ title task) (stdout s))
  /\ (exists task' s',
         complete_task clock task_id s = (Ok (Some task'), s')
         /\ (notification s', stdout s')
            = send (notification s) ("Task completed: " ++ title task') (stdout s))
  /\ (forall task, exists s',
         add_task clock task s = (Ok task, s')
         /\ (notification s', stdout s')
            = send (notification s) ("Task added: " ++ title task) (stdout s)).
Proof.
  intros Hr. apply in_bounds_spec in Hr.
  destruct (in_bounds_lookup _ _ Hr) as [task Hl].
  assert (Hlt : (Z.to_nat task_id < length (tasks s))%nat)
    by (apply in_bounds_spec in Hr; lia).
  repeat split.
  - rewrite (archive_task_run clock task_id s task Hr Hl). cbv zeta.
    eexists _, _. split; [reflexivity |].
    repeat split.
    + simpl. apply list_lookup_insert_eq. exact Hlt.
    + eexists. reflexivity.
  - intros kwargs.
    rewrite (update_task_run clock task_id kwargs s task Hr Hl). cbv zeta.
    eexists _, _. split; [reflexivity |]. sent_by_notified.
  - rewrite (delete_task_run clock task_id s task Hr Hl). cbv zeta.
    eexists _, _. split; [exact Hl |]. split; [reflexivity |].
    sent_by_notified.
  - rewrite (complete_task_run clock task_id s task Hr Hl). cbv zeta.
    eexists _, _. split; [reflexivity |]. sent_by_notified.
  - intros t. rewrite add_task_run. eexists. split; [reflexivity |].
    sent_by_notified.
Qed.

(** C9: [delete_task] on an id in range only sets the status of that task
    to DELETED: [updated_at] and every other field keep their values, and
    the other tasks are untouched. [update_task], [complete_task] and
    [archive_task] store a fresh reading of the clock in [updated_at]. *)
Theorem delete_task_keeps_updated_at (task_id : Z) (s : State N) :
  0 <= task_id < Z.of_nat (length (tasks s)) ->
  exists task,
    tasks s !! Z.to_nat task_id = Some task
    /\ (exists s',
           delete_task clock task_id s = (Ok true, s')
           /\ tasks s' = <[Z.to_nat task_id := set_status DELETED task]> (tasks s)
           /\ tasks s' !! Z.to_nat task_id = Some (set_status DELETED task)
           /\ status (set_status DELETED task) = DELETED
           /\ updated_at (set_status DELETED task) = updated_at task
           /\ set_status (status task) (set_status DELETED task) = task)
    /\ (forall kwargs, exists task' s',
           update_task clock task_id kwargs s = (Ok (Some task'), s')
           /\ tasks s' !! Z.to_nat task_id = Some task'
           /\ updated_at task' = clock (ticks s))
    /\ (exists task' s',
           complete_task clock task_id s = (Ok (Some task'), s')
           /\ tasks s' !! Z.to_nat task_id = Some task'
           /\ updated_at task' = clock (S (ticks s)))
    /\ (exists task' s',
           archive_task clock task_id s = (Ok (Some task'), s')
           /\ tasks s' !! Z.to_nat task_id = Some task'
           /\ updated_at task' = clock (ticks s)).
Proof.
  intros Hr. apply in_bounds_spec in Hr.
  destruct (in_bounds_lookup _ _ Hr) as [task Hl].
  assert (Hlt : (Z.to_nat task_id < length (tasks s))%nat)
    by (apply in_bounds_spec in Hr; lia).
  exists task. split; [exact Hl |]. repeat split.
  - rewrite (delete_task_run clock task_id s task Hr Hl). cbv zeta.
    eexists. split; [reflexivity |].
    split; [reflexivity |].
    split; [simpl; apply list_lookup_insert_eq; exact Hlt |].
    split; [reflexivity |]. split; [reflexivity |].
    destruct task; reflexivity.
  - intros kwargs.
    rewrite (update_task_run clock task_id kwargs s task Hr Hl). cbv zeta.
    eexists _, _. split; [reflexivity |].
    split; [simpl; apply list_lookup_insert_eq; exact Hlt | reflexivity].
  - rewrite (complete_task_run clock task_id s task Hr Hl). cbv zeta.
    eexists _, _. split; [reflexivity |].
    split; [simpl; apply list_lookup_insert_eq; exact Hlt | reflexivity].
  - rewrite (archive_task_run clock task_id s task Hr Hl). cbv zeta.
    eexists _, _. split; [reflexivity |].
    split; [simpl; apply list_lookup_insert_eq; exact Hlt | reflexivity].
Qed.

(** C10: [update_task] on an id in range with keyword arguments that name no
    attribute (in particular with none at all) changes only [updated_at] of
    the task, and still appends exactly one UPDATE entry, saves the whole
    state and calls [send]. *)
Theorem update_task_without_changes (task_id : Z) (kwargs : list kwarg)
    (s : State N) :
  0 <= task_id < Z.of_nat (length (tasks s)) ->
  forallb (fun kw => negb (hasattr kw)) kwargs = true ->
  exists task s',
    tasks s !! Z.to_nat task_id = Some task
    /\ update_task clock task_id kwargs s
       = (Ok (Some (set_updated_at (clock (ticks s)) task)), s')
    /\ tasks s'
       = <[Z.to_nat task_id := set_updated_at (clock (ticks s)) task]> (tasks s)
    /\ changes (changelog s')
       = (changes (changelog s)
          ++ [mk_entry "UPDATE"
                (JDict [("old", to_dict task);
                        ("new", to_dict (set_updated_at (clock (ticks s)) task))])
                (clock (S (ticks s)))])%list
    /\ storage s' = Some (Document (dump s'))
    /\ (notification s', stdout s')
       = send (notification s) ("Task updated: " ++ title task) (stdout s).
Proof.
  intros Hr Hk. apply in_bounds_spec in Hr.
  destruct (in_bounds_lookup _ _ Hr) as [task Hl].
  exists task.
  rewrite (update_task_run clock task_id kwargs s task Hr Hl). cbv zeta.
  rewrite (fold_unknown_kwargs kwargs task Hk).
  eexists. split; [exact Hl |]. split; [reflexivity |].
  split; [reflexivity |]. split; [reflexivity |]. split; [reflexivity |].
  sent_by_notified.
Qed.

End ManagerClaims.

Lemma update_task_out_of_range_witness :
  ~ (0 <= 5 < Z.of_nat (length (tasks example_state)))
  /\ update_task tick_clock 5 [kw_title "Buy bread"] example_state
     = (Ok None, example_state).
Proof.
  split; [simpl; lia |].
  apply (update_task_out_of_range tick_clock 5 [kw_title "Buy bread"]
           example_state).
  simpl; lia.
Defined.

Lemma archive_task_sends_nothing_witness :
  0 <= 0 < Z.of_nat (length (tasks example_state))
  /\ exists task' s',
       archive_task tick_clock 0 example_state = (Ok (Some task'), s')
       /\ status task' = ARCHIVED
       /\ tasks s' !! Z.to_nat 0 = Some task'
       /\ (exists ts,
              changes (changelog s')
              = (changes (changelog example_state)
                 ++ [mk_entry "ARCHIVE" (to_dict task') ts])%list)
       /\ storage s' = Some (Document (dump s'))
       /\ notification s' = notification example_state
       /\ stdout s' = stdout example_state.
Proof.
  assert (Hr : 0 <= 0 < Z.of_nat (length (tasks example_state)))
    by (simpl; lia).
  split; [exact Hr |].
  exact (proj1 (archive_task_sends_nothing tick_clock 0 example_state Hr)).
Defined.

Lemma delete_task_keeps_updated_at_witness :
  0 <= 0 < Z.of_nat (length (tasks example_state))
  /\ exists s',
       delete_task tick_clock 0 example_state = (Ok true, s')
       /\ tasks s' = [set_status DELETED example_task].
Proof.
  assert (Hr : 0 <= 0 < Z.of_nat (length (tasks example_state)))
    by (simpl; lia).
  split; [exact Hr |].
  destruct (delete_task_keeps_updated_at tick_clock 0 example_state Hr)
    as (task & Hl & (s' & Hd & Ht & _) & _).
  simpl in Hl. injection Hl as <-.
  exists s'. split; [exact Hd | exact Ht].
Defined.

Lemma update_task_without_changes_witness :
  0 <= 0 < Z.of_nat (length (tasks example_state))
  /\ forallb (fun kw => negb (hasattr kw)) [kw_other "colour" (JStr "red")] = true
  /\ exists s',
       update_task tick_clock 0 [kw_other "colour" (JStr "red")] example_state
       = (Ok (Some (set_updated_at (tick_clock 2) example_task)), s')
       /\ notification s' = ["Task updated: Buy milk"].
Proof.
  assert (Hr : 0 <= 0 < Z.of_nat (length (tasks example_state)))
    by (simpl; lia).
  assert (Hk : forallb (fun kw => negb (hasattr kw))
                 [kw_other "colour" (JStr "red")] = true) by reflexivity.
  split; [exact Hr |]. split; [exact Hk |].
  destruct (update_task_without_changes tick_clock 0
              [kw_other "colour" (JStr "red")] example_state Hr Hk)
    as (task & s' & Hl & Hu & _ & _ & _ & Hs).
  simpl in Hl. injection Hl as <-.
  exists s'. split; [exact Hu |].
  simpl in Hs. injection Hs as Hn _. exact Hn.
Defined.

(** ** Claims about the change log and about overdue tasks *)

Lemma dt_geb_spec (a b : datetime) : dt_geb a b = true <-> dt_cmp a b <> Lt.
Proof.
  unfold dt_geb, dt_leb, dt_cmp.
  rewrite (lex_cmp_antisym (dt_key a) (dt_key b)).
  destruct (lex_cmp (dt_key a) (dt_key b)); simpl; split; congruence.
Qed.

Lemma filter_kept {A} (p : A -> bool) (l : list A) :
  kept (fun x => p x = true) l (List.filter p l).
Proof.
  induction l as [| x l IH]; simpl.
  - constructor.
  - destruct (p x) eqn:E.
    + apply kept_take; assumption.
    + apply kept_skip; [congruence | assumption].
Qed.

Lemma kept_ext {A} (P Q : A -> Prop) (l r : list A) :
  (forall x, P x <-> Q x) -> kept P l r -> kept Q l r.
Proof.
  intros HPQ Hk. induction Hk.
  - constructor.
  - apply kept_take; [apply HPQ; assumption | assumption].
  - apply kept_skip; [rewrite <- HPQ; assumption | assumption].
Qed.

Lemma filter_sublist {A} (p : A -> bool) (l : list A) :
  sublist (List.filter p l) l.
Proof.
  induction l as [| x l IH]; simpl.
  - constructor.
  - destruct (p x); [apply sublist_skip | apply sublist_cons]; exact IH.
Qed.

(** C8: [get_changes_since] returns the entries of the log whose timestamp
    is not before [since], each one kept and in the order of insertion; the
    log is left as it was, so that asking again gives the same list. *)
Theorem get_changes_since_spec (self : ChangeLog) (since : datetime) :
  exists r,
    get_changes_since self since = (r, self)
    /\ kept (fun change => dt_cmp (timestamp change) since <> Lt)
         (changes self) r
    /\ sublist r (changes self)
    /\ (forall change,
           In change r
           <-> In change (changes self)
               /\ dt_cmp (timestamp change) since <> Lt)
    /\ get_changes_since (snd (get_changes_since self since)) since = (r, self).
Proof.
  eexists. split; [reflexivity |].
  split; [| split; [| split; [split |]]].
  - eapply kept_ext; [| apply filter_kept].
    intros change. apply dt_geb_spec.
  - apply filter_sublist.
  - intros Hin. apply filter_In in Hin. destruct Hin as [Hin Hts].
    split; [exact Hin | apply dt_geb_spec; exact Hts].
  - intros [Hin Hts]. apply filter_In. split; [exact Hin |].
    apply dt_geb_spec. exact Hts.
  - reflexivity.
Qed.

Section TaskClaims.

Variable clock : nat -> datetime.

Lemma is_overdue_run (t : Task) (k : nat) :
  is_overdue clock t k
  = match due_date t with
    | None => (Ok None, k)
    | Some d =>
        (Ok (Some (dt_ltb d (clock k)
                   && negb (TaskStatus_eqb (status t) COMPLETED))), S k)
    end.
Proof.
  unfold is_overdue. destruct (due_date t) as [d |]; [| reflexivity].
  unfold bind, now, ret. destruct (dt_ltb d (clock k)); reflexivity.
Qed.

Lemma Task_init_run (title description : string) (due_date : option datetime)
    (priority : Priority) (category : string) (k : nat) :
  Task_init clock title description due_date priority category k
  = (Ok (mk_Task title description due_date priority category PENDING
           (clock k) (clock (S k)) None), S (S k)).
Proof. reflexivity. Qed.

Lemma update_run (self : Task) (kwargs : list kwarg) (k : nat) :
  update clock self kwargs k
  = (Ok (set_updated_at (clock k)
           (fold_left
              (fun self kw => if hasattr kw then setattr self kw else self)
              kwargs self)), S k).
Proof. reflexivity. Qed.

Lemma mark_as_completed_run (self : Task) (k : nat) :
  mark_as_completed clock self k
  = (Ok (set_updated_at (clock (S k))
           (set_completed_at (Some (clock k)) (set_status COMPLETED self))),
     S (S k)).
Proof. reflexivity. Qed.

Lemma archive_run (self : Task) (k : nat) :
  archive clock self k
  = (Ok (set_updated_at (clock k) (set_status ARCHIVED self)), S k).
Proof. reflexivity. Qed.

Lemma TaskStatus_eqb_spec (a b : TaskStatus) :
  TaskStatus_eqb a b = true <-> a = b.
Proof. destruct a, b; simpl; split; congruence. Qed.

(** C4: the result of [is_overdue] is true exactly when the task has a due
    date, the due date is before the current time and the status is not
    COMPLETED. After [mark_as_completed] the status is COMPLETED,
    [completed_at] is set, and [is_overdue] is false whenever it is asked. *)
Theorem is_overdue_spec (t : Task) (k : nat) :
  (exists v k',
      is_overdue clock t k = (Ok v, k')
      /\ (truth v = true
          <-> exists d, due_date t = Some d
                        /\ dt_ltb d (clock k) = true
                        /\ status t <> COMPLETED))
  /\ (exists t' k',
         mark_as_completed clock t k = (Ok t', k')
         /\ status t' = COMPLETED
         /\ completed_at t' <> None
         /\ due_date t' = due_date t
         /\ forall j, exists v j',
              is_overdue clock t' j = (Ok v, j') /\ truth v = false).
Proof.
  split.
  - rewrite is_overdue_run. destruct (due_date t) as [d |].
    + eexists _, _. split; [reflexivity |]. simpl. split.
      * intros Hv. apply andb_true_iff in Hv. destruct Hv as [Hlt Hst].
        exists d. repeat split; [exact Hlt |].
        intros E. apply TaskStatus_eqb_spec in E.
        rewrite E in Hst. discriminate.
      * intros (d' & Hd & Hlt & Hst). injection Hd as <-.
        rewrite Hlt. simpl. apply negb_true_iff.
        destruct (TaskStatus_eqb (status t) COMPLETED) eqn:E; [| reflexivity].
        apply TaskStatus_eqb_spec in E. contradiction.
    + eexists _, _. split; [reflexivity |]. simpl. split.
      * discriminate.
      * intros (d & Hd & _). discriminate.
  - rewrite mark_as_completed_run.
    eexists _, _. split; [reflexivity |]. simpl.
    repeat split; try discriminate.
    intros j. rewrite is_overdue_run. simpl.
    destruct (due_date t) as [d |]; eexists _, _; (split; [reflexivity |]).
    + simpl. apply andb_false_r.
    + reflexivity.
Qed.

End TaskClaims.

(** ** Claims about the filter *)

Lemma comprehension_pure (p : Task -> M nat bool) (q : Task -> bool)
    (l : list Task) (k : nat) :
  (forall t j, exists j', p t j = (Ok (q t), j')) ->
  exists k', comprehension p l k = (Ok (List.filter q l), k').
Proof.
  intros Hp. revert k. induction l as [| t l IH]; intros k; simpl.
  - eexists. reflexivity.
  - unfold bind. destruct (Hp t k) as [j E]. rewrite E.
    destruct (IH j) as [k' E']. rewrite E'.
    eexists. unfold ret. destruct (q t); reflexivity.
Qed.

Lemma comprehension_sublist (p : Task -> M nat bool) (l : list Task) (k : nat) :
  (forall t j, exists b j', p t j = (Ok b, j')) ->
  exists r k', comprehension p l k = (Ok r, k') /\ sublist r l.
Proof.
  intros Hp. revert k. induction l as [| t l IH]; intros k; simpl.
  - eexists _, _. split; [reflexivity | constructor].
  - unfold bind. destruct (Hp t k) as (b & j & E). rewrite E.
    destruct (IH j) as (r & k' & E' & Hs). rewrite E'.
    eexists _, _. unfold ret. split; [reflexivity |].
    destruct b; [apply sublist_skip | apply sublist_cons]; exact Hs.
Qed.

Lemma filter_all {A} (l : list A) : List.filter (fun _ => true) l = l.
Proof. induction l as [| x l IH]; simpl; congruence. Qed.

Lemma filter_filter {A} (p q : A -> bool) (l : list A) :
  List.filter q (List.filter p l) = List.filter (fun x => p x && q x) l.
Proof.
  induction l as [| x l IH]; simpl; [reflexivity |].
  destruct (p x); simpl; [destruct (q x) |]; congruence.
Qed.

Lemma filter_option {A B} (eqb : B -> B -> bool) (proj : A -> B)
    (o : option B) (l : list A) :
  match o with
  | Some v => List.filter (fun x => eqb (proj x) v) l
  | None => l
  end = List.filter (fun x => opt_eqb eqb (proj x) o) l.
Proof. destruct o; simpl; [reflexivity | symmetry; apply filter_all]. Qed.

Section FilterClaims.

Variable clock : nat -> datetime.

Lemma overdue_condition_total (t : Task) (j : nat) :
  exists b j', (let! v := is_overdue clock t in ret (truth v)) j = (Ok b, j').
Proof.
  unfold bind. rewrite is_overdue_run.
  destruct (due_date t); eexists _, _; reflexivity.
Qed.

Lemma due_within_total (n : Z) (t : Task) (j : nat) :
  exists b j', due_within clock n t j = (Ok b, j').
Proof.
  unfold due_within, days_until_due, bind.
  destruct (due_date t); eexists _, _; reflexivity.
Qed.

Lemma overdue_condition_frozen (now0 : datetime) (t : Task) (j : nat) :
  frozen clock now0 ->
  exists j',
    (let! v := is_overdue clock t in ret (truth v)) j
    = (Ok (spec_overdue now0 t), j').
Proof.
  intros Hf. unfold bind. rewrite is_overdue_run. unfold spec_overdue.
  destruct (due_date t); eexists; [rewrite Hf |]; reflexivity.
Qed.

Lemma due_within_frozen (now0 : datetime) (n : Z) (t : Task) (j : nat) :
  frozen clock now0 ->
  exists j', due_within clock n t j = (Ok (spec_due_in_days now0 n t), j').
Proof.
  intros Hf. unfold due_within, days_until_due, spec_due_in_days, bind.
  destruct (due_date t); eexists; simpl; [rewrite Hf |]; reflexivity.
Qed.

(** For every clock, [apply] returns, and what it returns is a subsequence
    of its argument. *)
Lemma TaskFilter_apply_sublist (self : TaskFilter.t) (tasks : list Task)
    (k : nat) :
  exists r k', TaskFilter_apply clock self tasks k = (Ok r, k') /\ sublist r tasks.
Proof.
  unfold TaskFilter_apply. cbv zeta.
  rewrite (filter_option TaskStatus_eqb status), (filter_option Priority_eqb priority),
    (filter_option String.eqb category).
  rewrite !filter_filter.
  match goal with |- context [List.filter ?p tasks] => set (l := List.filter p tasks) end.
  assert (Hl : sublist l tasks) by apply filter_sublist.
  clearbody l. unfold bind.
  destruct (TaskFilter.overdue_only self).
  - destruct (comprehension_sublist
                (fun t => let! v := is_overdue clock t in ret (truth v))
                l k overdue_condition_total)
      as (r & k' & E & Hs).
    unfold bind in E. rewrite E. destruct (TaskFilter.due_in_days self) as [n |].
    + destruct (comprehension_sublist (due_within clock n) r k'
                  (due_within_total n))
        as (r' & k'' & E' & Hs').
      rewrite E'. eexists _, _. split; [reflexivity |].
      etransitivity; [exact Hs' |]. etransitivity; eassumption.
    + eexists _, _. split; [reflexivity |]. etransitivity; eassumption.
  - unfold ret. destruct (TaskFilter.due_in_days self) as [n |].
    + destruct (comprehension_sublist (due_within clock n) l k
                  (due_within_total n))
        as (r' & k'' & E' & Hs').
      rewrite E'. eexists _, _. split; [reflexivity |].
      etransitivity; eassumption.
    + eexists _, _. split; [reflexivity | exact Hl].
Qed.

Lemma TaskFilter_apply_frozen (now0 : datetime) (self : TaskFilter.t)
    (tasks : list Task) (k : nat) :
  frozen clock now0 ->
  exists k',
    TaskFilter_apply clock self tasks k
    = (Ok (List.filter (spec_matches now0 self) tasks), k').
Proof.
  intros Hf. unfold TaskFilter_apply. cbv zeta.
  rewrite (filter_option TaskStatus_eqb status), (filter_option Priority_eqb priority),
    (filter_option String.eqb category).
  rewrite !filter_filter. cbv beta.
  assert (E : List.filter (spec_matches now0 self) tasks
              = List.filter
                  (fun t => opt_forall (fun n => spec_due_in_days now0 n t)
                              (TaskFilter.due_in_days self))
                  (List.filter
                     (fun t => if TaskFilter.overdue_only self
                               then spec_overdue now0 t else true)
                     (List.filter
                        (fun t =>
                           opt_eqb TaskStatus_eqb (status t) (TaskFilter.status self)
                           && (opt_eqb Priority_eqb (priority t)
                                 (TaskFilter.priority self)
                               && opt_eqb String.eqb (category t)
                                    (TaskFilter.category self)))
                        tasks))).
  { rewrite !filter_filter. apply filter_ext. intros t.
    unfold spec_matches. rewrite !andb_assoc. reflexivity. }
  rewrite E. clear E.
  match goal with |- context [List.filter ?p tasks] => set (l := List.filter p tasks) end.
  clearbody l. unfold bind.
  destruct (TaskFilter.overdue_only self).
  - destruct (comprehension_pure
                (fun t => let! v := is_overdue clock t in ret (truth v))
                (spec_overdue now0) l k
                (fun t j => overdue_condition_frozen now0 t j Hf)) as [k' E1].
    unfold bind in E1. rewrite E1. destruct (TaskFilter.due_in_days self) as [n |]; simpl.
    + apply comprehension_pure. intros t j. apply due_within_frozen. exact Hf.
    + rewrite filter_all. eexists. reflexivity.
  - rewrite filter_all. unfold ret.
    destruct (TaskFilter.due_in_days self) as [n |]; simpl.
    + apply comprehension_pure. intros t j. apply due_within_frozen. exact Hf.
    + rewrite filter_all. eexists. reflexivity.
Qed.

End FilterClaims.

Lemma days_until_due_run (clock : nat -> datetime) (t : Task) (k : nat) :
  days_until_due clock t k
  = match due_date t with
    | None => (Ok None, k)
    | Some d => (Ok (Some (timedelta_days d (clock k))), S k)
    end.
Proof. unfold days_until_due. destruct (due_date t); reflexivity. Qed.



(** ** Writing a task and reading it back *)

Lemma whole_seconds_spec (t : datetime) :
  whole_seconds t = true <-> valid_datetime t = true /\ dt_microsecond t = 0.
Proof. unfold whole_seconds. rewrite andb_true_iff, Z.eqb_eq. tauto. Qed.

Lemma strptime_whole_seconds (t : datetime) :
  whole_seconds t = true -> four_digit_year t = true ->
  strptime strptime_datetime (JStr (strftime_datetime t)) = Ok t.
Proof.
  intros Hw H4. apply whole_seconds_spec in Hw. destruct Hw as [Hv Hus].
  unfold strptime. rewrite strptime_datetime_strftime by assumption.
  reflexivity.
Qed.

Lemma strptime_midnight (t : datetime) :
  midnight t = true -> four_digit_year t = true ->
  strptime strptime_date (JStr (strftime_date t)) = Ok t.
Proof.
  unfold midnight. rewrite !andb_true_iff, !Z.eqb_eq, whole_seconds_spec.
  intros [[[[Hv Hus] Hh] Hm] Hs] H4.
  unfold strptime. rewrite strptime_date_strftime by assumption.
  reflexivity.
Qed.

Lemma truthy_year_digits (y : Z) (k : string) :
  truthy (JStr (year_digits y k)) = true.
Proof.
  unfold year_digits.
  destruct (1000 <=? y); [reflexivity |].
  destruct (100 <=? y); [reflexivity |].
  destruct (10 <=? y); reflexivity.
Qed.

Lemma truthy_strftime_datetime t : truthy (JStr (strftime_datetime t)) = true.
Proof. apply truthy_year_digits. Qed.
Lemma truthy_strftime_date t : truthy (JStr (strftime_date t)) = true.
Proof. apply truthy_year_digits. Qed.

Lemma Priority_getitem_name p : Priority_getitem (JStr (Priority_name p)) = Ok p.
Proof. destruct p; reflexivity. Qed.
Lemma TaskStatus_getitem_name s : TaskStatus_getitem (JStr (TaskStatus_name s)) = Ok s.
Proof. destruct s; reflexivity. Qed.

(** C3, as amended: a task whose [created_at], [updated_at] and
    [completed_at] have no microseconds, whose [due_date] is a date at
    midnight and whose dates all have a year of four digits (1000 or later)
    is read back from its flat record unchanged, in all fields, including an
    absent [due_date] and an absent [completed_at]. *)
Theorem from_dict_to_dict (clock : nat -> datetime) (t : Task) (k : nat) :
  wire_exact t = true ->
  four_digit_years t = true ->
  from_dict clock (to_dict t) k = (Ok t, S (S k)).
Proof.
  unfold wire_exact, four_digit_years. rewrite !andb_true_iff.
  intros [[[Hc Hu] Hco] Hd] [[[Yc Yu] Yco] Yd].
  destruct t as [ti de du pr ca st cr up co].
  simpl in Hc, Hu, Hco, Hd, Yc, Yu, Yco, Yd.
  unfold from_dict, to_dict.
  cbn [title description due_date priority category status created_at updated_at completed_at].
  unfold bind, lift_result.
  cbn [getitem get dict_lookup String.eqb Ascii.eqb Bool.eqb as_str].
  rewrite Priority_getitem_name, TaskStatus_getitem_name.
  rewrite (strptime_whole_seconds cr Hc Yc), (strptime_whole_seconds up Hu Yu).
  destruct du as [d |], co as [c |]; cbn [opt_json opt_forall] in *;
    rewrite ?truthy_strftime_date, ?truthy_strftime_datetime,
      ?(strptime_midnight _ Hd Yd), ?(strptime_whole_seconds _ Hco Yco);
    reflexivity.
Qed.

Lemma from_dict_to_dict_witness :
  wire_exact stored_task = true
  /\ four_digit_years stored_task = true
  /\ from_dict tick_clock (to_dict stored_task) 0%nat = (Ok stored_task, 2%nat).
Proof.
  assert (Hw : wire_exact stored_task = true) by reflexivity.
  assert (Hy : four_digit_years stored_task = true) by reflexivity.
  split; [exact Hw |]. split; [exact Hy |].
  exact (from_dict_to_dict tick_clock stored_task 0%nat Hw Hy).
Defined.

(** C3 as stated fails: the task that the constructor builds at the first
    two readings of [tick_clock] comes back with the microseconds of
    [updated_at] dropped. *)
Lemma from_dict_to_dict_drops_microseconds :
  Task_init tick_clock "Buy milk" "" None MEDIUM "General" 0%nat
  = (Ok example_task, 2%nat)
  /\ exists t',
       from_dict tick_clock (to_dict example_task) 2%nat = (Ok t', 4%nat)
       /\ updated_at example_task = mk_datetime 2024 1 1 0 0 0 1
       /\ updated_at t' = mk_datetime 2024 1 1 0 0 0 0
       /\ t' <> example_task.
Proof.
  split; [reflexivity |].
  eexists. split; [vm_compute; reflexivity |].
  split; [reflexivity |]. split; [reflexivity |].
  intros E. discriminate E.
Qed.

(** ** The order of [created_at] and [updated_at] *)

Lemma monotone_tick_clock : monotone tick_clock.
Proof.
  intros i j Hij. unfold dt_leb, dt_cmp, tick_clock, dt_key. simpl.
  destruct (Z.compare_spec (Z.of_nat i) (Z.of_nat j)); try reflexivity. lia.
Qed.

Lemma fold_keeps_created_at (kwargs : list kwarg) (t : Task) :
  forallb (fun kw => negb (names_created_at kw)) kwargs = true ->
  created_at
    (fold_left (fun self kw => if hasattr kw then setattr self kw else self)
       kwargs t)
  = created_at t.
Proof.
  revert t. induction kwargs as [| kw kwargs IH]; intros t Hk; simpl in *.
  - reflexivity.
  - apply andb_true_iff in Hk. destruct Hk as [Hkw Hrest].
    rewrite (IH _ Hrest). destruct kw; simpl in *; congruence.
Qed.

Section Invariant.

Variable clock : nat -> datetime.
Hypothesis clock_monotone : monotone clock.

Lemma task_inv_touch (k j k' : nat) (t t' : Task) :
  task_inv clock k t ->
  created_at t' = created_at t -> updated_at t' = clock j ->
  (k <= j)%nat -> (j <= k')%nat ->
  task_inv clock k' t'.
Proof.
  intros [_ Hnow] Hc Hu Hkj Hjk. unfold task_inv. rewrite Hc, Hu.
  split; (eapply dt_leb_trans; [exact Hnow |]); apply clock_monotone; lia.
Qed.

Lemma task_inv_keep (k k' : nat) (t t' : Task) :
  task_inv clock k t ->
  created_at t' = created_at t -> updated_at t' = updated_at t ->
  (k <= k')%nat ->
  task_inv clock k' t'.
Proof.
  intros [Hle Hnow] Hc Hu Hk. unfold task_inv. rewrite Hc, Hu.
  split; [exact Hle |].
  eapply dt_leb_trans; [exact Hnow |]. apply clock_monotone; lia.
Qed.

Lemma Task_init_inv (title description : string) (due_date : option datetime)
    (priority : Priority) (category : string) (k : nat) :
  exists t,
    Task_init clock title description due_date priority category k
    = (Ok t, S (S k))
    /\ task_inv clock (S (S k)) t.
Proof.
  eexists. split; [apply Task_init_run |].
  split; simpl; apply clock_monotone; lia.
Qed.

Lemma run_op_inv (op : task_op) (t : Task) (k : nat) :
  op_keeps_created_at op = true ->
  task_inv clock k t ->
  exists t' k', run_op clock t op k = (Ok t', k') /\ task_inv clock k' t'.
Proof.
  intros Hop Hinv. destruct op as [kwargs | | |]; simpl in *.
  - rewrite update_run. eexists _, _. split; [reflexivity |].
    apply (task_inv_touch k k (S k) t); auto.
    simpl. apply fold_keeps_created_at. exact Hop.
  - rewrite mark_as_completed_run. eexists _, _. split; [reflexivity |].
    apply (task_inv_touch k (S k) (S (S k)) t); auto.
  - rewrite archive_run. eexists _, _. split; [reflexivity |].
    apply (task_inv_touch k k (S k) t); auto.
  - eexists _, _. split; [reflexivity |].
    apply (task_inv_keep k k t); auto.
Qed.

Lemma run_ops_inv (ops : list task_op) (t : Task) (k : nat) :
  forallb op_keeps_created_at ops = true ->
  task_inv clock k t ->
  exists t' k', run_ops clock t ops k = (Ok t', k') /\ task_inv clock k' t'.
Proof.
  revert t k. induction ops as [| op ops IH]; intros t k Hops Hinv; simpl in *.
  - eexists _, _. split; [reflexivity | exact Hinv].
  - apply andb_true_iff in Hops. destruct Hops as [Hop Hops].
    destruct (run_op_inv op t k Hop Hinv) as (t1 & k1 & E1 & Hinv1).
    unfold bind. rewrite E1. apply IH; assumption.
Qed.

Context {N : Type} `{Notification N}.

Lemma Forall_task_inv_later (k k' : nat) (ts : list Task) :
  (k <= k')%nat ->
  Forall (task_inv clock k) ts -> Forall (task_inv clock k') ts.
Proof.
  intros Hk HF. eapply Forall_impl; [exact HF |]. intros t Hinv.
  apply (task_inv_keep k k' t t); auto.
Qed.

Lemma run_command_inv (c : command) (s : State N) :
  command_keeps_created_at c = true ->
  state_inv clock s ->
  exists s', run_command clock c s = (Ok tt, s') /\ state_inv clock s'.
Proof.
  intros Hc Hinv. unfold state_inv in *.
  destruct c as [ti de du pr ca | task_id kwargs | task_id | task_id | task_id];
    simpl in Hc; unfold run_command, bind.
  - unfold with_clock. rewrite Task_init_run. rewrite add_task_run.
    eexists. split; [reflexivity |]. simpl.
    apply Forall_app. split.
    + apply (Forall_task_inv_later (ticks s)); [lia | exact Hinv].
    + apply Forall_cons. split; [| apply Forall_nil; exact I].
      split; simpl; apply clock_monotone; lia.
  - destruct (in_bounds task_id (tasks s)) eqn:Hb.
    + destruct (in_bounds_lookup _ _ Hb) as [task Hl].
      rewrite (update_task_run clock task_id kwargs s task Hb Hl). cbv zeta.
      eexists. split; [reflexivity |]. simpl.
      apply Forall_insert.
      * apply (Forall_task_inv_later (ticks s)); [lia | exact Hinv].
      * apply (task_inv_touch (ticks s) (ticks s) _ task); auto.
        -- eapply Forall_lookup_1; eassumption.
        -- simpl. apply fold_keeps_created_at. exact Hc.
    + rewrite (update_task_skip clock task_id kwargs s Hb).
      eexists. split; [reflexivity | exact Hinv].
  - destruct (in_bounds task_id (tasks s)) eqn:Hb.
    + destruct (in_bounds_lookup _ _ Hb) as [task Hl].
      rewrite (delete_task_run clock task_id s task Hb Hl). cbv zeta.
      eexists. split; [reflexivity |]. simpl.
      apply Forall_insert.
      * apply (Forall_task_inv_later (ticks s)); [lia | exact Hinv].
      * apply (task_inv_keep (ticks s) _ task); auto.
        eapply Forall_lookup_1; eassumption.
    + rewrite (delete_task_skip clock task_id s Hb).
      eexists. split; [reflexivity | exact Hinv].
  - destruct (in_bounds task_id (tasks s)) eqn:Hb.
    + destruct (in_bounds_lookup _ _ Hb) as [task Hl].
      rewrite (complete_task_run clock task_id s task Hb Hl). cbv zeta.
      eexists. split; [reflexivity |]. simpl.
      apply Forall_insert.
      * apply (Forall_task_inv_later (ticks s)); [lia | exact Hinv].
      * apply (task_inv_touch (ticks s) (S (ticks s)) _ task); auto.
        eapply Forall_lookup_1; eassumption.
    + rewrite (complete_task_skip clock task_id s Hb).
      eexists. split; [reflexivity | exact Hinv].
  - destruct (in_bounds task_id (tasks s)) eqn:Hb.
    + destruct (in_bounds_lookup _ _ Hb) as [task Hl].
      rewrite (archive_task_run clock task_id s task Hb Hl). cbv zeta.
      eexists. split; [reflexivity |]. simpl.
      apply Forall_insert.
      * apply (Forall_task_inv_later (ticks s)); [lia | exact Hinv].
      * apply (task_inv_touch (ticks s) (ticks s) _ task); auto.
        eapply Forall_lookup_1; eassumption.
    + rewrite (archive_task_skip clock task_id s Hb).
      eexists. split; [reflexivity | exact Hinv].
Qed.

Lemma run_commands_inv (cs : list command) (s : State N) :
  forallb command_keeps_created_at cs = true ->
  state_inv clock s ->
  exists s', run_commands clock cs s = (Ok tt, s') /\ state_inv clock s'.
Proof.
  revert s. induction cs as [| c cs IH]; intros s Hcs Hinv; simpl in *.
  - eexists. split; [reflexivity | exact Hinv].
  - apply andb_true_iff in Hcs. destruct Hcs as [Hc Hcs].
    destruct (run_command_inv c s Hc Hinv) as (s1 & E1 & Hinv1).
    unfold bind. rewrite E1. apply IH; assumption.
Qed.

End Invariant.

(** C2, as amended: when the clock never goes backwards, a task built by
    the constructor satisfies [created_at <= updated_at] after any sequence
    of [update], [mark_as_completed], [archive] and soft-delete steps in
    which [update] is never given [created_at]; and in a manager that starts
    from a missing storage file, every task satisfies it after any sequence
    of add, update, delete, complete and archive operations of that kind. *)
Theorem created_at_le_updated_at (clock : nat -> datetime) :
  monotone clock ->
  (forall title description due_date priority category ops k,
      forallb op_keeps_created_at ops = true ->
      exists t k',
        (let! t := Task_init clock title description due_date priority category in
         run_ops clock t ops) k = (Ok t, k')
        /\ dt_leb (created_at t) (updated_at t) = true)
  /\ (forall (N : Type) (H : Notification N) (notification : N) k out cs,
         forallb command_keeps_created_at cs = true ->
         exists s0 s,
           TaskManager_init clock notification k None out = (Ok tt, s0)
           /\ run_commands clock cs s0 = (Ok tt, s)
           /\ Forall (fun t => dt_leb (created_at t) (updated_at t) = true)
                (tasks s)).
Proof.
  intros Hm. split.
  - intros ti de du pr ca ops k Hops.
    destruct (Task_init_inv clock Hm ti de du pr ca k) as (t0 & E0 & Hinv0).
    destruct (run_ops_inv clock Hm ops t0 _ Hops Hinv0) as (t & k' & E & Hinv).
    exists t, k'. unfold bind. rewrite E0. split; [exact E | apply Hinv].
  - intros N H n k out cs Hcs.
    eexists. 
    destruct (run_commands_inv clock Hm cs
                (mk_State [] (mk_ChangeLog []) n k None out) Hcs)
      as (s & E & Hinv).
    { apply Forall_nil. exact I. }
    exists s. split; [reflexivity |]. split; [exact E |].
    eapply Forall_impl; [exact Hinv |]. intros t Ht. apply Ht.
Qed.

Lemma created_at_le_updated_at_witness :
  monotone tick_clock
  /\ forallb op_keeps_created_at
       [op_update [kw_title "Buy bread"; kw_status ARCHIVED];
        op_mark_as_completed; op_delete] = true
  /\ exists t k',
       (let! t := Task_init tick_clock "Buy milk" "" None MEDIUM "General" in
        run_ops tick_clock t
          [op_update [kw_title "Buy bread"; kw_status ARCHIVED];
           op_mark_as_completed; op_delete]) 0%nat = (Ok t, k')
       /\ dt_leb (created_at t) (updated_at t) = true.
Proof.
  split; [exact monotone_tick_clock |].
  split; [reflexivity |].
  exact (proj1 (created_at_le_updated_at tick_clock monotone_tick_clock)
           "Buy milk" "" None MEDIUM "General"
           [op_update [kw_title "Buy bread"; kw_status ARCHIVED];
            op_mark_as_completed; op_delete] 0%nat eq_refl).
Defined.

(** C2 as stated fails: [update] accepts [created_at] like any other
    attribute, and a value later than the current time ends up after the
    refreshed [updated_at]. *)
Lemma update_created_at_breaks_order :
  exists t',
    Task_init tick_clock "Buy milk" "" None MEDIUM "General" 0%nat
    = (Ok example_task, 2%nat)
    /\ update tick_clock example_task
         [kw_created_at (mk_datetime 2030 1 1 0 0 0 0)] 2%nat
       = (Ok t', 3%nat)
    /\ created_at t' = mk_datetime 2030 1 1 0 0 0 0
    /\ updated_at t' = mk_datetime 2024 1 1 0 0 0 2
    /\ dt_leb (created_at t') (updated_at t') = false.
Proof.
  eexists. split; [reflexivity |]. split; [reflexivity |].
  split; [reflexivity |]. split; reflexivity.
Qed.

(** ** Loading the storage file *)

Section Loading.

Variable clock : nat -> datetime.
Context {N : Type} `{Notification N}.

(** A missing file is not an error: the manager starts empty. *)
Lemma load_data_missing_file (n : N) (k : nat) (out : list output) :
  TaskManager_init clock n k None out
  = (Ok tt, mk_State [] (mk_ChangeLog []) n k None out).
Proof. reflexivity. Qed.

(** The handler of [load_data] recovers from a file that is not JSON and
    from a record without a required key. *)
Lemma load_data_corrupt_recovers (n : N) (k : nat) (out : list output) :
  TaskManager_init clock n k (Some Corrupt) out
  = (Ok tt,
     mk_State [] (mk_ChangeLog []) n k (Some Corrupt)
       (out ++ [LoadError JSONDecodeError])%list).
Proof. reflexivity. Qed.

Lemma load_data_missing_key_recovers (n : N) (k : nat) (out : list output) :
  TaskManager_init clock n k
    (Some (Document (JDict [("tasks", JList [JDict []])]))) out
  = (Ok tt,
     mk_State [] (mk_ChangeLog []) n k
       (Some (Document (JDict [("tasks", JList [JDict []])])))
       (out ++ [LoadError (KeyError (JStr "title"))])%list).
Proof. reflexivity. Qed.

(** C1: what [load_data] does on a file with a bad date string. The
    [ValueError] of [strptime] is not among the exceptions that the handler
    catches: it leaves [load_data] and the constructor of the manager, no
    diagnostic is printed, and when the bad date is in the change log the
    tasks of the file have already been stored in the manager. *)
Theorem load_data_bad_date_escapes (n : N) (k : nat) (out : list output) :
  TaskManager_init clock n k (Some bad_date_file) out
  = (Raise ValueError,
     mk_State [] (mk_ChangeLog []) n (S (S k)) (Some bad_date_file) out)
  /\ TaskManager_init clock n k (Some bad_log_date_file) out
     = (Raise ValueError,
        mk_State [stored_task] (mk_ChangeLog []) n (S (S k))
          (Some bad_log_date_file) out).
Proof. split; reflexivity. Qed.

End Loading.

(** * Further properties of the code *)

(** ** What the flat record keeps *)

Lemma strptime_datetime_strftime_any (t : datetime) :
  valid_datetime t = true -> four_digit_year t = true ->
  strptime_datetime (strftime_datetime t) = Some (drop_microsecond t).
Proof.
  intros Hv H4. apply valid_datetime_spec in Hv.
  destruct Hv as (Hd & Hh & Hm & Hs & _).
  unfold strptime_datetime, strftime_datetime.
  rewrite read_date_strftime by (assumption || reflexivity).
  unfold read_spaces. change (is_space " ") with true. cbv iota.
  unfold pad2 at 1. cbn [skip_spaces]. rewrite is_space_digit_char.
  fold (pad2 (dt_hour t)
          (String ":" (pad2 (dt_minute t) (String ":" (pad2 (dt_second t) ""))))).
  rewrite read_time_pad by assumption. reflexivity.
Qed.

Lemma strptime_date_strftime_any (t : datetime) :
  valid_datetime t = true -> four_digit_year t = true ->
  strptime_date (strftime_date t) = Some (drop_time t).
Proof.
  intros Hv H4. apply valid_datetime_spec in Hv. destruct Hv as (Hd & _).
  unfold strptime_date, strftime_date.
  rewrite read_date_strftime by (assumption || reflexivity). reflexivity.
Qed.

Lemma to_dict_on_wire (t : Task) : to_dict (on_wire t) = to_dict t.
Proof.
  destruct t as [ti de du pr ca st cr up co].
  destruct du, co; reflexivity.
Qed.

Lemma from_dict_to_dict_any (clock : nat -> datetime) (t : Task) (k : nat) :
  valid_task t = true -> four_digit_years t = true ->
  from_dict clock (to_dict t) k = (Ok (on_wire t), S (S k)).
Proof.
  intros Hv Hy. unfold valid_task in Hv. unfold four_digit_years in Hy.
  rewrite !andb_true_iff in Hv, Hy.
  destruct Hv as [[[Hc Hu] Hco] Hd]. destruct Hy as [[[Yc Yu] Yco] Yd].
  destruct t as [ti de du pr ca st cr up co].
  simpl in Hc, Hu, Hco, Hd, Yc, Yu, Yco, Yd.
  unfold from_dict, to_dict, on_wire.
  cbn [title description due_date priority category status created_at
         updated_at completed_at].
  unfold bind, lift_result.
  cbn [getitem get dict_lookup String.eqb Ascii.eqb Bool.eqb as_str].
  rewrite Priority_getitem_name, TaskStatus_getitem_name.
  unfold strptime at 2 3.
  rewrite (strptime_datetime_strftime_any cr Hc Yc),
    (strptime_datetime_strftime_any up Hu Yu).
  destruct du as [d |], co as [c |]; cbn [opt_json opt_forall] in *;
    rewrite ?truthy_strftime_date, ?truthy_strftime_datetime;
    unfold strptime;
    rewrite ?(strptime_date_strftime_any _ Hd Yd),
      ?(strptime_datetime_strftime_any _ Hco Yco);
    reflexivity.
Qed.

(** X1: reading back the flat record of a task whose dates all have a year
    of four digits (1000 or later) gives the task with the microseconds of
    its timestamps and the time of day of its due date dropped, and nothing
    else changed; writing that task again gives the same record. *)
Theorem from_dict_to_dict_on_wire (clock : nat -> datetime) (t : Task)
    (k : nat) :
  valid_task t = true ->
  four_digit_years t = true ->
  from_dict clock (to_dict t) k = (Ok (on_wire t), S (S k))
  /\ to_dict (on_wire t) = to_dict t
  /\ from_dict clock (to_dict (on_wire t)) k = (Ok (on_wire t), S (S k)).
Proof.
  intros Hv Hy. pose proof (from_dict_to_dict_any clock t k Hv Hy) as E.
  split; [exact E |]. split; [apply to_dict_on_wire |].
  rewrite to_dict_on_wire. exact E.
Qed.

Lemma from_dict_to_dict_on_wire_witness :
  valid_task example_task = true
  /\ four_digit_years example_task = true
  /\ from_dict tick_clock (to_dict example_task) 2%nat
     = (Ok (on_wire example_task), 4%nat).
Proof.
  assert (Hv : valid_task example_task = true) by reflexivity.
  assert (Hy : four_digit_years example_task = true) by reflexivity.
  split; [exact Hv |]. split; [exact Hy |].
  exact (proj1 (from_dict_to_dict_on_wire tick_clock example_task 2%nat Hv Hy)).
Defined.

(** ** What the parsers accept *)

Ltac split_matches :=
  repeat (match goal with
          | |- context [match ?x with _ => _ end] => destruct x eqn:?
          end; try discriminate).

Lemma read_date_valid (s : string) (y m d : Z) (rest : string) :
  read_date s = Some (y, m, d, rest) -> valid_date y m d = true.
Proof.
  unfold read_date. split_matches. intros E. injection E as <- <- <- _.
  assumption.
Qed.

Lemma read_time_valid (s : string) (h mi sec : Z) (rest : string) :
  read_time s = Some (h, mi, sec, rest) ->
  in_range 0 h 23 && in_range 0 mi 59 && in_range 0 sec 59 = true.
Proof.
  unfold read_time. split_matches. intros E. injection E as <- <- <- _.
  assumption.
Qed.

Lemma strptime_datetime_whole_seconds (s : string) (t : datetime) :
  strptime_datetime s = Some t -> whole_seconds t = true.
Proof.
  unfold strptime_datetime.
  destruct (read_date s) as [[[[y m] d] s1] |] eqn:Ed; [| discriminate].
  destruct (read_spaces s1) as [s2 |]; [| discriminate].
  destruct (read_time s2) as [[[[h mi] sec] s3] |] eqn:Et; [| discriminate].
  destruct s3; [| discriminate]. intros E. injection E as <-.
  apply read_date_valid in Ed. apply read_time_valid in Et.
  unfold whole_seconds, valid_datetime. simpl.
  rewrite Ed. rewrite !andb_true_iff in Et. destruct Et as [[-> ->] ->].
  reflexivity.
Qed.

Lemma strptime_date_midnight (s : string) (t : datetime) :
  strptime_date s = Some t -> midnight t = true.
Proof.
  unfold strptime_date.
  destruct (read_date s) as [[[[y m] d] s1] |] eqn:Ed; [| discriminate].
  destruct s1; [| discriminate]. intros E. injection E as <-.
  apply read_date_valid in Ed.
  unfold midnight, whole_seconds, valid_datetime. simpl.
  rewrite Ed. reflexivity.
Qed.

Lemma strptime_ok_whole_seconds (v : json) (t : datetime) :
  strptime strptime_datetime v = Ok t -> whole_seconds t = true.
Proof.
  unfold strptime. destruct v; try discriminate.
  destruct (strptime_datetime s) eqn:E; [| discriminate].
  intros E'. injection E' as <-. eapply strptime_datetime_whole_seconds, E.
Qed.

Lemma strptime_ok_midnight (v : json) (t : datetime) :
  strptime strptime_date v = Ok t -> midnight t = true.
Proof.
  unfold strptime. destruct v; try discriminate.
  destruct (strptime_date s) eqn:E; [| discriminate].
  intros E'. injection E' as <-. eapply strptime_date_midnight, E.
Qed.

Lemma whole_seconds_drop_microsecond (t : datetime) :
  whole_seconds t = true -> drop_microsecond t = t.
Proof.
  intros Hw. apply whole_seconds_spec in Hw. destruct Hw as [_ Hus].
  destruct t; simpl in *. subst. reflexivity.
Qed.

Lemma midnight_drop_time (t : datetime) : midnight t = true -> drop_time t = t.
Proof.
  unfold midnight. rewrite !andb_true_iff, !Z.eqb_eq, whole_seconds_spec.
  intros [[[[_ Hus] Hh] Hm] Hs]. destruct t; simpl in *. subst. reflexivity.
Qed.

Lemma midnight_valid (t : datetime) : midnight t = true -> valid_datetime t = true.
Proof.
  unfold midnight. rewrite !andb_true_iff, whole_seconds_spec. tauto.
Qed.

Lemma wire_exact_on_wire (t : Task) : wire_exact t = true -> on_wire t = t.
Proof.
  unfold wire_exact. rewrite !andb_true_iff. intros [[[Hc Hu] Hco] Hd].
  destruct t as [ti de du pr ca st cr up co]. unfold on_wire. simpl in *.
  rewrite (whole_seconds_drop_microsecond cr Hc),
    (whole_seconds_drop_microsecond up Hu).
  destruct du as [d |], co as [c |]; simpl in *;
    rewrite ?(midnight_drop_time _ Hd), ?(whole_seconds_drop_microsecond _ Hco);
    reflexivity.
Qed.

Lemma wire_exact_valid (t : Task) : wire_exact t = true -> valid_task t = true.
Proof.
  unfold wire_exact, valid_task. rewrite !andb_true_iff.
  intros [[[Hc Hu] Hco] Hd].
  apply whole_seconds_spec in Hc, Hu.
  repeat split; try tauto.
  - destruct (completed_at t); simpl in *; [| reflexivity].
    apply whole_seconds_spec in Hco. tauto.
  - destruct (due_date t); simpl in *; [| reflexivity].
    apply midnight_valid. exact Hd.
Qed.

Lemma from_dict_wire_exact (clock : nat -> datetime) (data : json) (k k' : nat)
    (t : Task) :
  from_dict clock data k = (Ok t, k') -> wire_exact t = true /\ k' = S (S k).
Proof.
  unfold from_dict, bind, lift_result, ret.
  repeat (first
            [ rewrite Task_init_run
            | match goal with
              | |- context [truthy ?c] => destruct (truthy c) eqn:?
              | |- context [match getitem ?d ?key with _ => _ end] =>
                  destruct (getitem d key) eqn:?
              | |- context [match strptime ?p ?v with _ => _ end] =>
                  destruct (strptime p v) eqn:?
              end
            | match goal with
              | |- context [match ?x with _ => _ end] => destruct x eqn:?
              end ];
          cbv beta iota; try discriminate);
    intros E; injection E as <- <-;
    repeat match goal with
      | H : (_, _) = (_, _) |- _ => injection H as ? ?; subst
      | H : Some _ = Some _ |- _ => injection H as ?; subst
      | H : Ok _ = Ok _ |- _ => injection H as ?; subst
      | H : strptime strptime_datetime _ = Ok _ |- _ =>
          apply strptime_ok_whole_seconds in H
      | H : strptime strptime_date _ = Ok _ |- _ =>
          apply strptime_ok_midnight in H
      end;
    (split; [| reflexivity]);
    unfold wire_exact; simpl; rewrite !andb_true_iff; auto.
Qed.

(** X2: a task that [from_dict] accepts has timestamps without microseconds
    and a due date at midnight, and the constructor inside [from_dict] read
    the clock twice; when the dates of the task all have a year of four
    digits (1000 or later), the task is read back unchanged from its own
    record. *)
Theorem from_dict_result_round_trips (clock : nat -> datetime) (data : json)
    (k k' : nat) (t : Task) :
  from_dict clock data k = (Ok t, k') ->
  wire_exact t = true
  /\ k' = S (S k)
  /\ (four_digit_years t = true ->
      forall j, from_dict clock (to_dict t) j = (Ok t, S (S j))).
Proof.
  intros E. destruct (from_dict_wire_exact clock data k k' t E) as [Hw Hk].
  split; [exact Hw |]. split; [exact Hk |]. intros Hy j.
  rewrite (from_dict_to_dict_any clock t j (wire_exact_valid t Hw) Hy).
  rewrite (wire_exact_on_wire t Hw). reflexivity.
Qed.

Lemma from_dict_result_round_trips_witness :
  from_dict tick_clock (to_dict example_task) 0%nat
  = (Ok (on_wire example_task), 2%nat)
  /\ four_digit_years (on_wire example_task) = true
  /\ from_dict tick_clock (to_dict (on_wire example_task)) 7%nat
     = (Ok (on_wire example_task), 9%nat).
Proof.
  assert (E : from_dict tick_clock (to_dict example_task) 0%nat
              = (Ok (on_wire example_task), 2%nat)) by reflexivity.
  assert (Hy : four_digit_years (on_wire example_task) = true) by reflexivity.
  split; [exact E |]. split; [exact Hy |].
  exact (proj2 (proj2 (from_dict_result_round_trips tick_clock _ _ _ _ E))
           Hy 7%nat).
Defined.

Lemma getitem_ok (data : json) (key : string) (v : json) :
  getitem data key = Ok v ->
  exists kvs, data = JDict kvs /\ dict_lookup key kvs = Some v.
Proof.
  unfold getitem. destruct data; try discriminate.
  destruct (dict_lookup key kvs) eqn:E; [| discriminate].
  intros E'. injection E' as <-. eauto.
Qed.

(** X3: [from_dict] accepts a record only if it is a dictionary that has
    the keys [title], [created_at] and [updated_at]. On a value that is not
    a dictionary it raises [TypeError], on a dictionary without [title] it
    raises [KeyError('title')], in both cases before the clock is read. *)
Theorem from_dict_required_keys (clock : nat -> datetime) (data : json)
    (k : nat) :
  (forall t k',
      from_dict clock data k = (Ok t, k') ->
      exists kvs,
        data = JDict kvs
        /\ dict_lookup "title" kvs <> None
        /\ dict_lookup "created_at" kvs <> None
        /\ dict_lookup "updated_at" kvs <> None)
  /\ ((forall kvs, data <> JDict kvs) ->
      from_dict clock data k = (Raise TypeError, k))
  /\ (forall kvs,
         data = JDict kvs -> dict_lookup "title" kvs = None ->
         from_dict clock data k = (Raise (KeyError (JStr "title")), k)).
Proof.
  split; [| split].
  - intros t k'. unfold from_dict, bind, lift_result, ret.
    destruct (getitem data "title") as [vt | |] eqn:Et; try discriminate.
    destruct (getitem_ok _ _ _ Et) as (kvs & -> & Ht).
    repeat (first
              [ rewrite Task_init_run
              | match goal with
                | |- context [truthy ?c] => destruct (truthy c) eqn:?
                | |- context [match getitem ?d ?key with _ => _ end] =>
                    destruct (getitem d key) eqn:?
                | |- context [match strptime ?p ?v with _ => _ end] =>
                    destruct (strptime p v) eqn:?
                end
              | match goal with
                | |- context [match ?x with _ => _ end] => destruct x eqn:?
                end ];
            cbv beta iota; try discriminate);
      intros _; exists kvs; (split; [reflexivity |]);
      repeat match goal with
        | H : getitem (JDict kvs) _ = Ok _ |- _ =>
            apply getitem_ok in H; destruct H as (kvs' & Hk & H);
            injection Hk as <-
        end;
      repeat split; congruence.
  - intros Hnd. unfold from_dict, bind, lift_result.
    destruct data; try reflexivity. exfalso. eapply Hnd. reflexivity.
  - intros kvs -> Hnone. unfold from_dict, bind, lift_result, getitem.
    rewrite Hnone. reflexivity.
Qed.

Lemma from_dict_required_keys_witness :
  dict_lookup "title" [("created_at", JStr "2024-01-01 00:00:00")] = None
  /\ from_dict tick_clock (JDict [("created_at", JStr "2024-01-01 00:00:00")])
       0%nat
     = (Raise (KeyError (JStr "title")), 0%nat).
Proof.
  split; [reflexivity |].
  exact (proj2 (proj2 (from_dict_required_keys tick_clock
                         (JDict [("created_at", JStr "2024-01-01 00:00:00")])
                         0%nat))
           _ eq_refl eq_refl).
Defined.

(** X4: the optional keys of a record have defaults. A dictionary that has
    a string [title] and parseable [created_at] and [updated_at] and none of
    the other keys is read as a PENDING task of MEDIUM priority in the
    category General, with an empty description, no due date and no
    completion time. *)
Theorem from_dict_defaults (clock : nat -> datetime) (kvs : list (string * json))
    (k : nat) (s : string) (vc vu : json) (tc tu : datetime) :
  dict_lookup "title" kvs = Some (JStr s) ->
  dict_lookup "created_at" kvs = Some vc ->
  dict_lookup "updated_at" kvs = Some vu ->
  strptime strptime_datetime vc = Ok tc ->
  strptime strptime_datetime vu = Ok tu ->
  dict_lookup "description" kvs = None ->
  dict_lookup "due_date" kvs = None ->
  dict_lookup "priority" kvs = None ->
  dict_lookup "category" kvs = None ->
  dict_lookup "status" kvs = None ->
  dict_lookup "completed_at" kvs = None ->
  from_dict clock (JDict kvs) k
  = (Ok (mk_Task s "" None MEDIUM "General" PENDING tc tu None), S (S k)).
Proof.
  intros Ht Hc Hu Hpc Hpu Hde Hdu Hpr Hca Hst Hco.
  unfold from_dict, bind, lift_result, getitem, get.
  rewrite Ht, Hc, Hu, Hde, Hdu, Hpr, Hca, Hst, Hco. simpl.
  rewrite Hpc, Hpu. reflexivity.
Qed.

Lemma from_dict_defaults_witness :
  from_dict tick_clock
    (JDict [("title", JStr "Buy milk");
            ("created_at", JStr "2024-01-01 08:00:00");
            ("updated_at", JStr "2024-01-02 09:30:00")]) 0%nat
  = (Ok (mk_Task "Buy milk" "" None MEDIUM "General" PENDING
           (mk_datetime 2024 1 1 8 0 0 0) (mk_datetime 2024 1 2 9 30 0 0) None),
     2%nat).
Proof.
  exact (from_dict_defaults tick_clock
           [("title", JStr "Buy milk");
            ("created_at", JStr "2024-01-01 08:00:00");
            ("updated_at", JStr "2024-01-02 09:30:00")] 0%nat "Buy milk"
           (JStr "2024-01-01 08:00:00") (JStr "2024-01-02 09:30:00")
           (mk_datetime 2024 1 1 8 0 0 0) (mk_datetime 2024 1 2 9 30 0 0)
           eq_refl eq_refl eq_refl eq_refl eq_refl eq_refl eq_refl eq_refl
           eq_refl eq_refl eq_refl).
Defined.

(** ** The change log and the storage file *)

Lemma entry_from_dict_to_dict (e : entry) :
  valid_datetime (timestamp e) = true -> four_digit_year (timestamp e) = true ->
  entry_from_dict
    (JDict [("action", JStr (action e));
            ("task_data", task_data e);
            ("timestamp", JStr (strftime_datetime (timestamp e)))])
  = Ok (entry_on_wire e).
Proof.
  intros Hv Hy. unfold entry_from_dict.
  cbn [getitem dict_lookup String.eqb Ascii.eqb Bool.eqb].
  unfold strptime. rewrite (strptime_datetime_strftime_any _ Hv Hy).
  reflexivity.
Qed.

Lemma entries_from_dict_to_dict (acc l : list entry) :
  forallb (fun e => valid_datetime (timestamp e)
                    && four_digit_year (timestamp e)) l = true ->
  entries_from_dict acc
    (map (fun change =>
            JDict [("action", JStr (action change));
                   ("task_data", task_data change);
                   ("timestamp", JStr (strftime_datetime (timestamp change)))])
       l)
  = Ok (acc ++ map entry_on_wire l)%list.
Proof.
  revert acc. induction l as [| e l IH]; intros acc Hv.
  - simpl. rewrite app_nil_r. reflexivity.
  - simpl in Hv. apply andb_true_iff in Hv. destruct Hv as [He Hl].
    apply andb_true_iff in He. destruct He as [He Hy].
    cbn [map entries_from_dict]. rewrite (entry_from_dict_to_dict e He Hy).
    rewrite (IH _ Hl). rewrite <- app_assoc. reflexivity.
Qed.

Lemma ChangeLog_from_dict_to_dict_any (self : ChangeLog) :
  forallb (fun e => valid_datetime (timestamp e)
                    && four_digit_year (timestamp e)) (changes self) = true ->
  ChangeLog_from_dict (ChangeLog_to_dict self)
  = Ok (mk_ChangeLog (map entry_on_wire (changes self))).
Proof.
  intros Hv. unfold ChangeLog_from_dict, ChangeLog_to_dict. cbn [iter].
  rewrite (entries_from_dict_to_dict [] _ Hv). reflexivity.
Qed.

(** X5: for a log whose timestamps all have a year of four digits (1000 or
    later), reading back what [ChangeLog.to_dict] wrote gives the same
    entries in the same order, with the same action and task data, the
    timestamps cut to whole seconds; a log whose timestamps have no
    microseconds comes back unchanged. *)
Theorem ChangeLog_round_trip (self : ChangeLog) :
  forallb (fun e => valid_datetime (timestamp e)
                    && four_digit_year (timestamp e)) (changes self) = true ->
  ChangeLog_from_dict (ChangeLog_to_dict self)
  = Ok (mk_ChangeLog (map entry_on_wire (changes self)))
  /\ (forallb (fun e => dt_microsecond (timestamp e) =? 0) (changes self) = true ->
      ChangeLog_from_dict (ChangeLog_to_dict self) = Ok self).
Proof.
  intros Hv. split; [apply ChangeLog_from_dict_to_dict_any; exact Hv |].
  intros Hus. rewrite (ChangeLog_from_dict_to_dict_any self Hv).
  destruct self as [l]. simpl in *. do 2 f_equal.
  induction l as [| e l IH]; [reflexivity |].
  simpl in Hv, Hus. apply andb_true_iff in Hv, Hus.
  destruct Hv as [Hv1 Hv2], Hus as [Hu1 Hu2].
  apply andb_true_iff in Hv1. destruct Hv1 as [Hv1 _].
  simpl. rewrite (IH Hv2 Hu2). f_equal.
  destruct e as [a d ts]. unfold entry_on_wire. simpl in *. f_equal.
  apply whole_seconds_drop_microsecond. unfold whole_seconds.
  rewrite Hv1, Hu1. reflexivity.
Qed.

Lemma ChangeLog_round_trip_witness :
  forallb (fun e => valid_datetime (timestamp e)
                    && four_digit_year (timestamp e))
    [mk_entry "CREATE" (to_dict example_task) (tick_clock 2);
     mk_entry "TEST" (JDict [("key", JStr "value")]) (tick_clock 0)] = true
  /\ ChangeLog_from_dict
       (ChangeLog_to_dict
          (mk_ChangeLog
             [mk_entry "CREATE" (to_dict example_task) (tick_clock 2);
              mk_entry "TEST" (JDict [("key", JStr "value")]) (tick_clock 0)]))
     = Ok (mk_ChangeLog
             [mk_entry "CREATE" (to_dict example_task) (tick_clock 0);
              mk_entry "TEST" (JDict [("key", JStr "value")]) (tick_clock 0)]).
Proof.
  split; [reflexivity |].
  exact (proj1 (ChangeLog_round_trip
                  (mk_ChangeLog
                     [mk_entry "CREATE" (to_dict example_task) (tick_clock 2);
                      mk_entry "TEST" (JDict [("key", JStr "value")])
                        (tick_clock 0)])
                  eq_refl)).
Defined.

Lemma from_dicts_to_dict (clock : nat -> datetime) (ts : list Task) (k : nat) :
  forallb (fun t => valid_task t && four_digit_years t) ts = true ->
  from_dicts clock (map to_dict ts) k
  = (Ok (map on_wire ts), (2 * length ts + k)%nat).
Proof.
  revert k. induction ts as [| t ts IH]; intros k Hv.
  - reflexivity.
  - simpl in Hv. apply andb_true_iff in Hv. destruct Hv as [Ht Hts].
    apply andb_true_iff in Ht. destruct Ht as [Ht Hy].
    cbn [map from_dicts]. unfold bind.
    rewrite (from_dict_to_dict_any clock t k Ht Hy).
    rewrite (IH (S (S k)) Hts). unfold ret. f_equal. simpl. lia.
Qed.

(** X6: for a state whose dates all have a year of four digits (1000 or
    later), a manager constructed on the file that [save_data] wrote holds
    the tasks and the change log of that state, in the same order, each cut
    to what the formats keep; nothing is printed, and the constructor of
    [Task] has read the clock twice for every task. *)
Theorem load_data_after_save_data (clock : nat -> datetime) {N : Type}
    `{Notification N} (s : State N) (n : N) (k : nat) (out : list output) :
  forallb (fun t => valid_task t && four_digit_years t) (tasks s) = true ->
  forallb (fun e => valid_datetime (timestamp e)
                    && four_digit_year (timestamp e))
    (changes (changelog s)) = true ->
  exists s1,
    save_data s = (Ok tt, s1)
    /\ tasks s1 = tasks s /\ changelog s1 = changelog s
    /\ TaskManager_init clock n k (storage s1) out
       = (Ok tt,
          mk_State (map on_wire (tasks s))
            (mk_ChangeLog (map entry_on_wire (changes (changelog s))))
            n (2 * length (tasks s) + k)%nat (storage s1) out).
Proof.
  intros Hts Hlog. eexists. split; [reflexivity |].
  split; [reflexivity |]. split; [reflexivity |].
  unfold TaskManager_init, load_data, bind, read, try_except, lift_result,
    with_clock, put_tasks, put_changelog.
  cbn [storage tasks changelog notification ticks stdout dump json_load get
         dict_lookup String.eqb Ascii.eqb Bool.eqb iter].
  rewrite (from_dicts_to_dict clock (tasks s) k Hts).
  cbn [storage tasks changelog notification ticks stdout].
  rewrite (ChangeLog_from_dict_to_dict_any (changelog s) Hlog).
  reflexivity.
Qed.

Lemma load_data_after_save_data_witness :
  forallb (fun t => valid_task t && four_digit_years t)
    (tasks example_state) = true
  /\ forallb (fun e => valid_datetime (timestamp e)
                       && four_digit_year (timestamp e))
       (changes (changelog example_state)) = true
  /\ exists s1,
       save_data example_state = (Ok tt, s1)
       /\ TaskManager_init tick_clock ([] : list string) 7%nat
            (storage s1) []
          = (Ok tt,
             mk_State [on_wire example_task] (mk_ChangeLog [])
               [] 9%nat (storage s1) []).
Proof.
  split; [reflexivity |]. split; [reflexivity |].
  destruct (load_data_after_save_data tick_clock example_state
              [] 7%nat [] eq_refl eq_refl)
    as (s1 & E1 & _ & _ & E2).
  exists s1. split; [exact E1 | exact E2].
Defined.

Ltac load_data_leaf :=
  simpl;
  try match goal with E : storage _ = Some _ |- _ => rewrite ?E end;
  split; [reflexivity |];
  split; [reflexivity |];
  split; [intros ? E0; first [discriminate E0 | injection E0 as <-; assumption] |];
  split;
  [ first [ left; reflexivity
          | right; eexists; repeat split; first [eassumption | reflexivity] ]
  | intros E0; first [discriminate E0 | split; reflexivity] ].

(** X7: whatever the storage file holds, [load_data] does not write to it
    and sends no notification; an exception that leaves it is never a
    [KeyError] or a [JSONDecodeError]; when it prints its diagnostic it
    returns normally with no tasks and an empty change log; and without a
    file it changes nothing at all. *)
Theorem load_data_outcomes (clock : nat -> datetime) {N : Type}
    `{Notification N} (s : State N) :
  let r := fst (load_data clock s) in
  let s' := snd (load_data clock s) in
  storage s' = storage s
  /\ notification s' = notification s
  /\ (forall e, r = Raise e -> caught e = false)
  /\ (stdout s' = stdout s
      \/ exists e,
           caught e = true /\ r = Ok tt
           /\ stdout s' = (stdout s ++ [LoadError e])%list
           /\ tasks s' = [] /\ changes (changelog s') = [])
  /\ (storage s = None -> r = Ok tt /\ s' = s).
Proof.
  unfold load_data, bind, read, try_except, lift_result, with_clock,
    put_tasks, put_changelog, print, ret.
  cbv zeta.
  destruct (storage s) as [f |] eqn:Es; cbn [storage].
  2: { simpl. rewrite Es. repeat split; auto. intros e E0; discriminate E0. }
  destruct (json_load f) as [data | e |] eqn:Ej;
    [| destruct (caught e) eqn:Ec; load_data_leaf | load_data_leaf].
  destruct (get data "tasks" (JList [])) as [v | e |];
    [| destruct (caught e) eqn:Ec; load_data_leaf | load_data_leaf].
  destruct (iter v) as [l | e |];
    [| destruct (caught e) eqn:Ec; load_data_leaf | load_data_leaf].
  cbn [ticks].
  destruct (from_dicts clock l (ticks s)) as [[ts | e |] k'];
    [| destruct (caught e) eqn:Ec; load_data_leaf | load_data_leaf].
  destruct (get data "changelog" (JList [])) as [v' | e |];
    [| destruct (caught e) eqn:Ec; load_data_leaf | load_data_leaf].
  destruct (ChangeLog_from_dict v') as [log | e |];
    [| destruct (caught e) eqn:Ec; load_data_leaf | load_data_leaf].
  load_data_leaf.
Qed.

(** ** Sequences of operations of the manager *)

Section Commands.

Variable clock : nat -> datetime.
Context {N : Type} `{Notification N}.

Lemma synced_saved (s : State N) :
  storage s = Some (Document (dump s)) -> synced s.
Proof. intros E. left. exact E. Qed.

Lemma run_command_effect (c : command) (s : State N) :
  exists s' new,
    run_command clock c s = (Ok tt, s')
    /\ changes (changelog s') = (changes (changelog s) ++ new)%list
    /\ (length new <= 1)%nat
    /\ Forall (fun e => In (action e) manager_actions) new
    /\ length (tasks s')
       = (length (tasks s) + (if is_add c then 1 else 0))%nat
    /\ (synced s -> synced s').
Proof.
  assert (Hskip : forall s0 : State N,
             exists s' new,
               (Ok tt, s0) = (Ok tt, s')
               /\ changes (changelog s') = (changes (changelog s0) ++ new)%list
               /\ (length new <= 1)%nat
               /\ Forall (fun e => In (action e) manager_actions) new
               /\ length (tasks s') = (length (tasks s0) + 0)%nat
               /\ (synced s0 -> synced s')).
  { intros s0. exists s0, []. rewrite app_nil_r.
    split; [reflexivity |]. split; [reflexivity |]. split; [simpl; lia |].
    split; [constructor |]. split; [lia | auto]. }
  destruct c as [ti de du pr ca | task_id kwargs | task_id | task_id | task_id];
    unfold run_command, bind; cbn [is_add].
  - unfold with_clock. rewrite Task_init_run. rewrite add_task_run.
    eexists _, [_]. split; [reflexivity |]. simpl.
    split; [reflexivity |]. split; [lia |].
    split; [repeat constructor |].
    split; [rewrite length_app; reflexivity |].
    intros _. apply synced_saved. reflexivity.
  - destruct (in_bounds task_id (tasks s)) eqn:Hb.
    + destruct (in_bounds_lookup _ _ Hb) as [task Hl].
      rewrite (update_task_run clock task_id kwargs s task Hb Hl). cbv zeta.
      eexists _, [_]. split; [reflexivity |]. simpl.
      split; [reflexivity |]. split; [lia |].
      split; [repeat constructor; simpl; tauto |].
      split; [rewrite length_insert; lia |].
      intros _. apply synced_saved. reflexivity.
    + rewrite (update_task_skip clock task_id kwargs s Hb). apply Hskip.
  - destruct (in_bounds task_id (tasks s)) eqn:Hb.
    + destruct (in_bounds_lookup _ _ Hb) as [task Hl].
      rewrite (delete_task_run clock task_id s task Hb Hl). cbv zeta.
      eexists _, [_]. split; [reflexivity |]. simpl.
      split; [reflexivity |]. split; [lia |].
      split; [repeat constructor; simpl; tauto |].
      split; [rewrite length_insert; lia |].
      intros _. apply synced_saved. reflexivity.
    + rewrite (delete_task_skip clock task_id s Hb). apply Hskip.
  - destruct (in_bounds task_id (tasks s)) eqn:Hb.
    + destruct (in_bounds_lookup _ _ Hb) as [task Hl].
      rewrite (complete_task_run clock task_id s task Hb Hl). cbv zeta.
      eexists _, [_]. split; [reflexivity |]. simpl.
      split; [reflexivity |]. split; [lia |].
      split; [repeat constructor; simpl; tauto |].
      split; [rewrite length_insert; lia |].
      intros _. apply synced_saved. reflexivity.
    + rewrite (complete_task_skip clock task_id s Hb). apply Hskip.
  - destruct (in_bounds task_id (tasks s)) eqn:Hb.
    + destruct (in_bounds_lookup _ _ Hb) as [task Hl].
      rewrite (archive_task_run clock task_id s task Hb Hl). cbv zeta.
      eexists _, [_]. split; [reflexivity |]. simpl.
      split; [reflexivity |]. split; [lia |].
      split; [repeat constructor; simpl; tauto |].
      split; [rewrite length_insert; lia |].
      intros _. apply synced_saved. reflexivity.
    + rewrite (archive_task_skip clock task_id s Hb). apply Hskip.
Qed.

Lemma run_commands_effect (cs : list command) (s : State N) :
  exists s' new,
    run_commands clock cs s = (Ok tt, s')
    /\ changes (changelog s') = (changes (changelog s) ++ new)%list
    /\ (length new <= length cs)%nat
    /\ Forall (fun e => In (action e) manager_actions) new
    /\ length (tasks s')
       = (length (tasks s) + length (List.filter is_add cs))%nat
    /\ (synced s -> synced s').
Proof.
  revert s. induction cs as [| c cs IH]; intros s.
  - exists s, []. simpl. rewrite app_nil_r.
    split; [reflexivity |]. split; [reflexivity |]. split; [lia |].
    split; [constructor |]. split; [lia | auto].
  - destruct (run_command_effect c s) as (s1 & n1 & E1 & L1 & B1 & A1 & T1 & S1).
    destruct (IH s1) as (s2 & n2 & E2 & L2 & B2 & A2 & T2 & S2).
    exists s2, (n1 ++ n2)%list. cbn [run_commands]. unfold bind.
    rewrite E1. split; [exact E2 |].
    split; [rewrite L2, L1, app_assoc; reflexivity |].
    split; [rewrite length_app; simpl; lia |].
    split; [apply Forall_app; split; assumption |].
    split; [| auto].
    rewrite T2, T1. simpl. destruct (is_add c); simpl; lia.
Qed.

(** X8: every sequence of add, update, delete, complete and archive
    operations runs to the end, and the change log only grows: the old
    entries stay in place, at most one entry per operation is appended, each
    with one of the five actions of the manager. No task is ever removed:
    the number of tasks grows by exactly the number of tasks added. *)
Theorem run_commands_append_only (cs : list command) (s : State N) :
  exists s' new,
    run_commands clock cs s = (Ok tt, s')
    /\ changes (changelog s') = (changes (changelog s) ++ new)%list
    /\ (length new <= length cs)%nat
    /\ Forall (fun e => In (action e) manager_actions) new
    /\ length (tasks s')
       = (length (tasks s) + length (List.filter is_add cs))%nat.
Proof.
  destruct (run_commands_effect cs s) as (s' & new & E & L & B & A & T & _).
  exists s', new. auto.
Qed.

(** X9: the storage file follows the state. If the file holds the state of
    the manager (or there is no file and the manager is empty, as after a
    start without a file), then after any sequence of operations the file
    again holds the whole state that the manager has reached. *)
Theorem run_commands_synced (cs : list command) (s : State N) :
  synced s ->
  exists s', run_commands clock cs s = (Ok tt, s') /\ synced s'.
Proof.
  intros Hs.
  destruct (run_commands_effect cs s) as (s' & new & E & _ & _ & _ & _ & S).
  exists s'. split; [exact E | apply S; exact Hs].
Qed.

End Commands.

Lemma run_commands_synced_witness :
  synced (mk_State [] (mk_ChangeLog []) ([] : list string) 0%nat None [])
  /\ exists s',
       run_commands tick_clock
         [cmd_add "Buy milk" "" None MEDIUM "General"; cmd_complete 0;
          cmd_delete 3]
         (mk_State [] (mk_ChangeLog []) ([] : list string) 0%nat None [])
       = (Ok tt, s')
       /\ synced s'.
Proof.
  assert (Hs : synced (mk_State [] (mk_ChangeLog []) ([] : list string)
                         0%nat None []))
    by (right; repeat split; reflexivity).
  split; [exact Hs |].
  exact (run_commands_synced tick_clock _ _ Hs).
Defined.

(** ** Adding and looking up tasks *)

Section Lookup.

Variable clock : nat -> datetime.
Context {N : Type} `{Notification N}.

(** X10: [add_task] returns the task it was given and puts it at the end of
    the list, so that its id is the previous number of tasks: [get_task]
    with that id finds it, and every earlier id still finds the task it
    found before. One CREATE entry with the record of the task is appended
    and the state is saved. *)
Theorem add_task_then_get_task (task : Task) (s : State N) :
  exists s',
    add_task clock task s = (Ok task, s')
    /\ tasks s' = (tasks s ++ [task])%list
    /\ changes (changelog s')
       = (changes (changelog s)
          ++ [mk_entry "CREATE" (to_dict task) (clock (ticks s))])%list
    /\ storage s' = Some (Document (dump s'))
    /\ get_task (Z.of_nat (length (tasks s))) s' = (Ok (Some task), s')
    /\ (forall i, 0 <= i < Z.of_nat (length (tasks s)) ->
        get_task i s' = (Ok (tasks s !! Z.to_nat i), s')).
Proof.
  rewrite add_task_run. eexists. split; [reflexivity |].
  split; [reflexivity |]. split; [reflexivity |]. split; [reflexivity |].
  split.
  - unfold get_task, bind, read, ret, in_bounds. cbn [tasks notified].
    rewrite length_app. cbn [length].
    replace ((0 <=? Z.of_nat (length (tasks s)))
             && (Z.of_nat (length (tasks s))
                 <? Z.of_nat (length (tasks s) + 1))) with true
      by (symmetry; apply andb_true_iff; split;
          [apply Z.leb_le | apply Z.ltb_lt]; lia).
    rewrite Nat2Z.id.
    rewrite lookup_app_r by lia. rewrite Nat.sub_diag. reflexivity.
  - intros i Hi. unfold get_task, bind, read, ret, in_bounds.
    cbn [tasks notified]. rewrite length_app. cbn [length].
    replace ((0 <=? i) && (i <? Z.of_nat (length (tasks s) + 1))) with true
      by (symmetry; apply andb_true_iff; split;
          [apply Z.leb_le | apply Z.ltb_lt]; lia).
    rewrite lookup_app_l by lia. reflexivity.
Qed.

(** X11: [get_task] changes nothing, and it finds a task exactly for the
    ids from 0 to the number of tasks minus one: a negative id, which would
    index a Python list from its end, gives [None]. *)
Theorem get_task_bounds (task_id : Z) (s : State N) :
  exists r,
    get_task task_id s = (Ok r, s)
    /\ (r <> None <-> 0 <= task_id < Z.of_nat (length (tasks s)))
    /\ (forall t, r = Some t -> tasks s !! Z.to_nat task_id = Some t)
    /\ (task_id < 0 -> r = None).
Proof.
  unfold get_task, bind, read, ret.
  destruct (in_bounds task_id (tasks s)) eqn:Hb.
  - pose proof Hb as Hr. apply in_bounds_spec in Hr.
    destruct (in_bounds_lookup _ _ Hb) as [t Hl].
    eexists. split; [reflexivity |]. rewrite Hl.
    split; [split; [intros _; exact Hr | discriminate] |].
    split; [auto | lia].
  - assert (Hr : ~ (0 <= task_id < Z.of_nat (length (tasks s)))).
    { intros C. apply in_bounds_spec in C. congruence. }
    eexists. split; [reflexivity |].
    split; [split; [congruence | contradiction] |].
    split; [discriminate | reflexivity].
Qed.

End Lookup.

(** ** Overdue tasks and the number of days left *)

Lemma dt_sub_us_opp (a b : datetime) : dt_sub_us a b = - dt_sub_us b a.
Proof. unfold dt_sub_us, us_per_day. lia. Qed.

Lemma dt_sub_us_same (a : datetime) : dt_sub_us a a = 0.
Proof. unfold dt_sub_us. lia. Qed.

Lemma timedelta_days_sign (a b : datetime) :
  valid_datetime a = true -> valid_datetime b = true ->
  (timedelta_days a b < 0 <-> dt_ltb a b = true).
Proof.
  intros Ha Hb. split; [| apply timedelta_days_neg; assumption].
  intros Hneg. destruct (dt_ltb a b) eqn:Hlt; [reflexivity | exfalso].
  assert (Hge : 0 <= dt_sub_us a b).
  { unfold dt_ltb in Hlt. destruct (dt_cmp a b) eqn:Hc; try discriminate.
    - apply dt_cmp_eq in Hc. subst b. rewrite dt_sub_us_same. lia.
    - assert (Hba : dt_ltb b a = true).
      { unfold dt_ltb, dt_cmp in *.
        rewrite (lex_cmp_antisym (dt_key a) (dt_key b)), Hc. reflexivity. }
      pose proof (dt_ltb_sub_neg b a Hb Ha Hba). rewrite dt_sub_us_opp. lia. }
  unfold timedelta_days in Hneg.
  assert (0 <= dt_sub_us a b / us_per_day)
    by (apply Z.div_pos; [exact Hge | reflexivity]).
  lia.
Qed.

(** X12: read at the same time, [days_until_due] is negative exactly when
    the due date is before that time; so for a task that is not COMPLETED,
    [is_overdue] is true exactly when [days_until_due] is negative, and a
    task due at the very time of the call has 0 days left and is not
    overdue. *)
Theorem is_overdue_iff_negative_days (clock : nat -> datetime) (t : Task)
    (d : datetime) (k : nat) :
  due_date t = Some d ->
  valid_datetime d = true -> valid_datetime (clock k) = true ->
  exists v n,
    is_overdue clock t k = (Ok v, S k)
    /\ days_until_due clock t k = (Ok (Some n), S k)
    /\ (n < 0 <-> dt_ltb d (clock k) = true)
    /\ (status t <> COMPLETED -> (truth v = true <-> n < 0))
    /\ (d = clock k -> n = 0 /\ truth v = false).
Proof.
  intros Hd Hvd Hvn. rewrite is_overdue_run, days_until_due_run, Hd.
  eexists _, _. split; [reflexivity |]. split; [reflexivity |].
  pose proof (timedelta_days_sign d (clock k) Hvd Hvn) as Hs.
  split; [exact Hs |]. split.
  - intros Hst. simpl. rewrite Hs.
    assert (E : TaskStatus_eqb (status t) COMPLETED = false).
    { destruct (TaskStatus_eqb (status t) COMPLETED) eqn:E; [| reflexivity].
      apply TaskStatus_eqb_spec in E. contradiction. }
    rewrite E, andb_true_r. tauto.
  - intros ->. unfold timedelta_days. rewrite dt_sub_us_same. simpl.
    split; [reflexivity |].
    unfold dt_ltb, dt_cmp. rewrite lex_cmp_refl. reflexivity.
Qed.

Lemma is_overdue_iff_negative_days_witness :
  exists v n,
    is_overdue tick_clock
      (set_due_date (Some (mk_datetime 2023 12 31 23 59 59 0)) example_task)
      5%nat = (Ok v, 6%nat)
    /\ days_until_due tick_clock
         (set_due_date (Some (mk_datetime 2023 12 31 23 59 59 0)) example_task)
         5%nat = (Ok (Some n), 6%nat)
    /\ (n < 0 <-> dt_ltb (mk_datetime 2023 12 31 23 59 59 0) (tick_clock 5) = true).
Proof.
  destruct (is_overdue_iff_negative_days tick_clock
              (set_due_date (Some (mk_datetime 2023 12 31 23 59 59 0))
                 example_task)
              (mk_datetime 2023 12 31 23 59 59 0) 5%nat
              eq_refl eq_refl eq_refl)
    as (v & n & E1 & E2 & E3 & _).
  exists v, n. split; [exact E1 |]. split; [exact E2 | exact E3].
Defined.

(** ** The two standard views of the manager, for any clock *)

Lemma comprehension_selects (p : Task -> M nat bool) (l : list Task) (k : nat) :
  (forall t j, exists b j', p t j = (Ok b, j') /\ (j <= j')%nat) ->
  exists r k',
    comprehension p l k = (Ok r, k')
    /\ (k <= k')%nat
    /\ sublist r l
    /\ forall t, In t r ->
         exists j j', (k <= j)%nat /\ (j' <= k')%nat /\ p t j = (Ok true, j').
Proof.
  intros Hp. revert k. induction l as [| t l IH]; intros k; simpl.
  - eexists _, _. split; [reflexivity |]. split; [lia |].
    split; [constructor |]. intros t [].
  - unfold bind. destruct (Hp t k) as (b & j & E & Hj). rewrite E.
    destruct (IH j) as (r & k' & E' & Hk & Hs & Hsel). rewrite E'.
    eexists _, _. unfold ret. split; [reflexivity |]. split; [lia |].
    destruct b.
    + split; [apply sublist_skip; exact Hs |].
      intros t' [<- | Hin].
      * exists k, j. split; [lia |]. split; [lia | exact E].
      * destruct (Hsel t' Hin) as (j1 & j2 & H1 & H2 & H3).
        exists j1, j2. split; [lia |]. split; [lia | exact H3].
    + split; [apply sublist_cons; exact Hs |].
      intros t' Hin. destruct (Hsel t' Hin) as (j1 & j2 & H1 & H2 & H3).
      exists j1, j2. split; [lia |]. split; [lia | exact H3].
Qed.

Section Views.

Variable clock : nat -> datetime.
Context {N : Type} `{Notification N}.

Lemma overdue_condition_steps (t : Task) (j : nat) :
  exists b j',
    (let! v := is_overdue clock t in ret (truth v)) j = (Ok b, j')
    /\ (j <= j')%nat.
Proof.
  unfold bind. rewrite is_overdue_run.
  destruct (due_date t); eexists _, _; (split; [reflexivity | lia]).
Qed.

Lemma due_within_steps (n : Z) (t : Task) (j : nat) :
  exists b j', due_within clock n t j = (Ok b, j') /\ (j <= j')%nat.
Proof.
  unfold due_within, bind. rewrite days_until_due_run.
  destruct (due_date t) as [d |] eqn:Ed.
  - rewrite days_until_due_run, Ed. eexists _, _. split; [reflexivity | lia].
  - eexists _, _. split; [reflexivity | lia].
Qed.

(** X13: [get_overdue_tasks] changes nothing but the clock, and for any
    clock it returns tasks of the manager in their order, each of them
    PENDING and with a due date that was before the time read for it during
    the call; a soft-deleted, archived or completed task is never listed. *)
Theorem get_overdue_tasks_spec (s : State N) :
  exists r s',
    get_overdue_tasks clock s = (Ok r, s')
    /\ tasks s' = tasks s /\ changelog s' = changelog s
    /\ storage s' = storage s /\ notification s' = notification s
    /\ stdout s' = stdout s
    /\ sublist r (tasks s)
    /\ forall t, In t r ->
         status t = PENDING
         /\ exists d j,
              due_date t = Some d
              /\ (ticks s <= j < ticks s')%nat
              /\ dt_ltb d (clock j) = true.
Proof.
  unfold get_overdue_tasks, filter_tasks, bind, read, with_clock,
    TaskFilter_apply.
  cbn [TaskFilter.status TaskFilter.priority TaskFilter.category
         TaskFilter.overdue_only TaskFilter.due_in_days].
  unfold bind.
  destruct (comprehension_selects
              (fun t => let! v := is_overdue clock t in ret (truth v))
              (List.filter (fun t => TaskStatus_eqb (status t) PENDING) (tasks s))
              (ticks s) overdue_condition_steps)
    as (r & k' & E & Hk & Hs & Hsel).
  unfold bind in E. rewrite E. unfold ret.
  eexists _, _. split; [reflexivity |]. simpl.
  repeat (split; [reflexivity |]).
  split; [etransitivity; [exact Hs | apply filter_sublist] |].
  intros t Hin. split.
  - assert (Hin' : In t (List.filter
                           (fun t => TaskStatus_eqb (status t) PENDING)
                           (tasks s))).
    { apply list_elem_of_In. eapply elem_of_sublist; [| exact Hs].
      apply list_elem_of_In. exact Hin. }
    apply filter_In in Hin'. apply TaskStatus_eqb_spec. apply Hin'.
  - destruct (Hsel t Hin) as (j & j' & Hj & Hj' & Ep).
    unfold bind in Ep. rewrite is_overdue_run in Ep.
    destruct (due_date t) as [d |]; [| discriminate].
    injection Ep as Hv <-. exists d, j. split; [reflexivity |].
    split; [lia |]. simpl in Hv. apply andb_true_iff in Hv. apply Hv.
Qed.

(** X14: [get_upcoming_tasks] changes nothing but the clock, and for any
    clock it returns tasks of the manager in their order, each of them
    PENDING and with a due date between 0 and [days] days after the time
    read for it during the call; with a negative [days] it returns no
    task. *)
Theorem get_upcoming_tasks_spec (days : Z) (s : State N) :
  exists r s',
    get_upcoming_tasks clock days s = (Ok r, s')
    /\ tasks s' = tasks s /\ changelog s' = changelog s
    /\ storage s' = storage s /\ notification s' = notification s
    /\ stdout s' = stdout s
    /\ sublist r (tasks s)
    /\ (forall t, In t r ->
          status t = PENDING
          /\ exists d j,
               due_date t = Some d
               /\ (ticks s <= j < ticks s')%nat
               /\ 0 <= timedelta_days d (clock j) <= days)
    /\ (days < 0 -> r = []).
Proof.
  unfold get_upcoming_tasks, filter_tasks, bind, read, with_clock,
    TaskFilter_apply.
  cbn [TaskFilter.status TaskFilter.priority TaskFilter.category
         TaskFilter.overdue_only TaskFilter.due_in_days].
  unfold bind, ret.
  destruct (comprehension_selects (due_within clock days)
              (List.filter (fun t => TaskStatus_eqb (status t) PENDING) (tasks s))
              (ticks s) (due_within_steps days))
    as (r & k' & E & Hk & Hs & Hsel).
  rewrite E.
  assert (Hall : forall t, In t r ->
            status t = PENDING
            /\ exists d j,
                 due_date t = Some d
                 /\ (ticks s <= j < k')%nat
                 /\ 0 <= timedelta_days d (clock j) <= days).
  { intros t Hin. split.
    - assert (Hin' : In t (List.filter
                             (fun t => TaskStatus_eqb (status t) PENDING)
                             (tasks s))).
      { apply list_elem_of_In. eapply elem_of_sublist; [| exact Hs].
        apply list_elem_of_In. exact Hin. }
      apply filter_In in Hin'. apply TaskStatus_eqb_spec. apply Hin'.
    - destruct (Hsel t Hin) as (j & j' & Hj & Hj' & Ep).
      unfold due_within, bind in Ep. rewrite days_until_due_run in Ep.
      destruct (due_date t) as [d |] eqn:Ed; [| discriminate].
      rewrite days_until_due_run, Ed in Ep. unfold ret in Ep.
      injection Ep as Hv <-. exists d, (S j). split; [reflexivity |].
      split; [lia |]. apply andb_true_iff in Hv.
      rewrite !Z.leb_le in Hv. exact Hv. }
  eexists _, _. split; [reflexivity |]. simpl.
  repeat (split; [reflexivity |]).
  split; [etransitivity; [exact Hs | apply filter_sublist] |].
  split; [exact Hall |].
  intros Hneg. destruct r as [| t r]; [reflexivity | exfalso].
  destruct (Hall t (or_introl eq_refl)) as (_ & d & j & _ & _ & Hd). lia.
Qed.

End Views.

(** ** Filters at a fixed time *)

Lemma filter_none {A} (p : A -> bool) (l : list A) :
  (forall x, In x l -> p x = false) -> List.filter p l = [].
Proof.
  induction l as [| x l IH]; intros Hp; simpl; [reflexivity |].
  rewrite (Hp x (or_introl eq_refl)). apply IH.
  intros y Hy. apply Hp. right. exact Hy.
Qed.

Lemma filter_idem {A} (p : A -> bool) (l : list A) :
  List.filter p (List.filter p l) = List.filter p l.
Proof.
  rewrite filter_filter. apply filter_ext. intros x. apply andb_diag.
Qed.

(** X15: at a fixed time, a filter with both [overdue_only] and
    [due_in_days] set selects no task: a task that is overdue has a
    negative number of days left. *)
Theorem overdue_only_excludes_due_in_days (clock : nat -> datetime)
    (now0 : datetime) (self : TaskFilter.t) (n : Z) (tasks : list Task)
    (k : nat) :
  frozen clock now0 ->
  valid_datetime now0 = true ->
  (forall t d, In t tasks -> due_date t = Some d -> valid_datetime d = true) ->
  TaskFilter.overdue_only self = true ->
  TaskFilter.due_in_days self = Some n ->
  exists k', TaskFilter_apply clock self tasks k = (Ok [], k').
Proof.
  intros Hf Hn Hv Ho Hd.
  destruct (TaskFilter_apply_frozen clock now0 self tasks k Hf) as [k' E].
  exists k'. rewrite E. do 2 f_equal. apply filter_none.
  intros t Hin. unfold spec_matches. rewrite Ho, Hd. simpl.
  unfold spec_overdue, spec_due_in_days.
  destruct (due_date t) as [d |] eqn:Ed.
  - destruct (dt_ltb d now0) eqn:Hlt.
    + pose proof (timedelta_days_neg d now0 (Hv t d Hin Ed) Hn Hlt) as Hneg.
      assert (E0 : (0 <=? timedelta_days d now0) = false)
        by (apply Z.leb_gt; exact Hneg).
      rewrite E0. simpl. apply andb_false_r.
    + simpl. rewrite andb_false_r. reflexivity.
  - rewrite andb_false_r. reflexivity.
Qed.

Lemma overdue_only_excludes_due_in_days_witness :
  exists k',
    TaskFilter_apply still_clock
      (TaskFilter.mk None None None true (Some 30))
      [set_due_date (Some (mk_datetime 2023 12 31 0 0 0 0)) example_task;
       set_due_date (Some (mk_datetime 2024 1 5 0 0 0 0)) example_task] 0%nat
    = (Ok [], k').
Proof.
  refine (overdue_only_excludes_due_in_days still_clock
            (mk_datetime 2024 1 1 0 0 0 0)
            (TaskFilter.mk None None None true (Some 30)) 30
            [set_due_date (Some (mk_datetime 2023 12 31 0 0 0 0)) example_task;
             set_due_date (Some (mk_datetime 2024 1 5 0 0 0 0)) example_task]
            0%nat (fun k => eq_refl) eq_refl _ eq_refl eq_refl).
  intros t d [<- | [<- | []]] E; simpl in E; injection E as <-; reflexivity.
Defined.

(** X16: at a fixed time, filtering is idempotent: applying a filter to its
    own result gives that result again. *)
Theorem TaskFilter_apply_idempotent (clock : nat -> datetime)
    (now0 : datetime) (self : TaskFilter.t) (tasks : list Task) (k : nat) :
  frozen clock now0 ->
  exists r k1 k2,
    TaskFilter_apply clock self tasks k = (Ok r, k1)
    /\ TaskFilter_apply clock self r k1 = (Ok r, k2).
Proof.
  intros Hf.
  destruct (TaskFilter_apply_frozen clock now0 self tasks k Hf) as [k1 E1].
  destruct (TaskFilter_apply_frozen clock now0 self
              (List.filter (spec_matches now0 self) tasks) k1 Hf) as [k2 E2].
  eexists _, k1, k2. split; [exact E1 |].
  rewrite E2, filter_idem. reflexivity.
Qed.

Lemma TaskFilter_apply_idempotent_witness :
  frozen still_clock (mk_datetime 2024 1 1 0 0 0 0)
  /\ exists r k1 k2,
       TaskFilter_apply still_clock
         (TaskFilter.mk None (Some MEDIUM) None false None)
         [example_task; stored_task] 0%nat = (Ok r, k1)
       /\ TaskFilter_apply still_clock
            (TaskFilter.mk None (Some MEDIUM) None false None) r k1
          = (Ok r, k2).
Proof.
  assert (Hf : frozen still_clock (mk_datetime 2024 1 1 0 0 0 0))
    by (intros k; reflexivity).
  split; [exact Hf |].
  exact (TaskFilter_apply_idempotent still_clock _
           (TaskFilter.mk None (Some MEDIUM) None false None)
           [example_task; stored_task] 0%nat Hf).
Defined.

(** ** More on the change log *)

(** X17: an entry added with [add_change] goes to the end of the log and
    leaves the entries before it as they were; with an explicit timestamp
    the clock is not read. [get_changes_since] then returns what it returned
    before, followed by the new entry when its timestamp is not before
    [since]. *)
Theorem add_change_then_get_changes_since (clock : nat -> datetime)
    (self : ChangeLog) (action : string) (task_data : json)
    (timestamp : option datetime) (since : datetime) (k : nat) :
  exists ts k' log,
    add_change clock self action task_data timestamp k = (Ok log, k')
    /\ (ts, k') = match timestamp with
                  | Some v => (v, k)
                  | None => (clock k, S k)
                  end
    /\ changes log = (changes self ++ [mk_entry action task_data ts])%list
    /\ fst (get_changes_since log since)
       = (fst (get_changes_since self since)
          ++ (if dt_geb ts since then [mk_entry action task_data ts] else []))%list.
Proof.
  unfold add_change, bind, ret, now.
  destruct timestamp as [v |];
    (eexists _, _, _; split; [reflexivity |]; split; [reflexivity |];
     split; [reflexivity |];
     unfold get_changes_since; cbn [fst changes];
     rewrite List.filter_app; reflexivity).
Qed.

Lemma dt_geb_trans_since (t a b : datetime) :
  dt_leb a b = true -> dt_geb t b = true -> dt_geb t a = true.
Proof. unfold dt_geb. intros Hab Hbt. eapply dt_leb_trans; eassumption. Qed.

Lemma filter_sublist_mono {A} (p q : A -> bool) (l : list A) :
  (forall x, q x = true -> p x = true) ->
  sublist (List.filter q l) (List.filter p l).
Proof.
  intros Hpq. induction l as [| x l IH]; simpl; [constructor |].
  destruct (q x) eqn:Eq.
  - rewrite (Hpq x Eq). apply sublist_skip. exact IH.
  - destruct (p x); [apply sublist_cons |]; exact IH.
Qed.

(** X18: asking for the changes since a later time gives a subsequence of
    the changes since an earlier time; asking twice in a row with the same
    time filters nothing more. *)
Theorem get_changes_since_later (self : ChangeLog) (since1 since2 : datetime) :
  dt_leb since1 since2 = true ->
  sublist (fst (get_changes_since self since2))
    (fst (get_changes_since self since1))
  /\ fst (get_changes_since
            (mk_ChangeLog (fst (get_changes_since self since1))) since1)
     = fst (get_changes_since self since1).
Proof.
  intros Hle. unfold get_changes_since. cbn [fst changes]. split.
  - apply filter_sublist_mono. intros c Hc.
    eapply dt_geb_trans_since; eassumption.
  - apply filter_idem.
Qed.

Lemma get_changes_since_later_witness :
  dt_leb (tick_clock 1) (tick_clock 2) = true
  /\ sublist
       (fst (get_changes_since
               (mk_ChangeLog [mk_entry "CREATE" JNull (tick_clock 1);
                              mk_entry "UPDATE" JNull (tick_clock 3)])
               (tick_clock 2)))
       (fst (get_changes_since
               (mk_ChangeLog [mk_entry "CREATE" JNull (tick_clock 1);
                              mk_entry "UPDATE" JNull (tick_clock 3)])
               (tick_clock 1))).
Proof.
  split; [reflexivity |].
  exact (proj1 (get_changes_since_later
                  (mk_ChangeLog [mk_entry "CREATE" JNull (tick_clock 1);
                                 mk_entry "UPDATE" JNull (tick_clock 3)])
                  (tick_clock 1) (tick_clock 2) eq_refl)).
Defined.

(** ** What [update] leaves alone *)

Lemma fold_setattr_frame {A} (proj : Task -> A) (key : string) :
  (forall t kw,
      hasattr kw = true -> String.eqb (kw_key kw) key = false ->
      proj (setattr t kw) = proj t) ->
  forall kwargs t,
    mentions key kwargs = false ->
    proj (fold_left (fun self kw => if hasattr kw then setattr self kw else self)
            kwargs t)
    = proj t.
Proof.
  intros Hframe kwargs. induction kwargs as [| kw kwargs IH]; intros t Hm.
  - reflexivity.
  - simpl in Hm. apply orb_false_iff in Hm. destruct Hm as [Hkw Hrest].
    simpl. rewrite (IH _ Hrest).
    destruct (hasattr kw) eqn:Ha; [| reflexivity].
    apply Hframe; [exact Ha |]. simpl in Hkw. exact Hkw.
Qed.

Ltac setattr_frame :=
  apply fold_setattr_frame;
  let t := fresh "t" in
  let kw := fresh "kw" in
  intros t kw; destruct kw; simpl; intros; try reflexivity; discriminate.

(** X19: [update] always stores the time of the call in [updated_at], also
    when [updated_at] is among the keywords, and it changes no other
    attribute than those that a keyword names. *)
Theorem update_frame (clock : nat -> datetime) (self : Task)
    (kwargs : list kwarg) (k : nat) :
  exists t',
    update clock self kwargs k = (Ok t', S k)
    /\ updated_at t' = clock k
    /\ (mentions "title" kwargs = false -> title t' = title self)
    /\ (mentions "description" kwargs = false ->
        description t' = description self)
    /\ (mentions "due_date" kwargs = false -> due_date t' = due_date self)
    /\ (mentions "priority" kwargs = false -> priority t' = priority self)
    /\ (mentions "category" kwargs = false -> category t' = category self)
    /\ (mentions "status" kwargs = false -> status t' = status self)
    /\ (mentions "created_at" kwargs = false -> created_at t' = created_at self)
    /\ (mentions "completed_at" kwargs = false ->
        completed_at t' = completed_at self).
Proof.
  rewrite update_run. eexists. split; [reflexivity |].
  split; [reflexivity |]. simpl.
  repeat split; revert self; setattr_frame.
Qed.

Lemma update_frame_witness :
  mentions "status" [kw_title "Buy bread"; kw_updated_at (tick_clock 0)] = false
  /\ exists t',
       update tick_clock example_task
         [kw_title "Buy bread"; kw_updated_at (tick_clock 0)] 9%nat
       = (Ok t', 10%nat)
       /\ updated_at t' = tick_clock 9
       /\ status t' = status example_task.
Proof.
  split; [reflexivity |].
  destruct (update_frame tick_clock example_task
              [kw_title "Buy bread"; kw_updated_at (tick_clock 0)] 9%nat)
    as (t' & E & Hu & _ & _ & _ & _ & _ & Hs & _).
  exists t'. split; [exact E |]. split; [exact Hu | exact (Hs eq_refl)].
Defined.

(** ** Names and labels of the enumerations *)

(** X20: the names that [to_dict] writes for a priority and a status are
    the only strings that the lookups [Priority[...]] and [TaskStatus[...]]
    of [from_dict] accept, and each gives back its member; the labels that
    [__str__] shows (Low, Pending and so on) are not accepted. *)
Theorem enum_names_round_trip :
  (forall p, Priority_getitem (JStr (Priority_name p)) = Ok p)
  /\ (forall s p, Priority_getitem (JStr s) = Ok p -> s = Priority_name p)
  /\ (forall p,
         Priority_getitem (JStr (Priority_str p))
         = Raise (KeyError (JStr (Priority_str p))))
  /\ (forall st, TaskStatus_getitem (JStr (TaskStatus_name st)) = Ok st)
  /\ (forall s st, TaskStatus_getitem (JStr s) = Ok st -> s = TaskStatus_name st)
  /\ (forall st,
         TaskStatus_getitem (JStr (TaskStatus_str st))
         = Raise (KeyError (JStr (TaskStatus_str st)))).
Proof.
  split; [apply Priority_getitem_name |].
  split.
  { intros s p. unfold Priority_getitem.
    repeat match goal with
      | |- context [String.eqb s ?n] =>
          destruct (String.eqb_spec s n) as [-> | _]
      end; intros E; try discriminate; injection E as <-; reflexivity. }
  split; [intros p; destruct p; reflexivity |].
  split; [apply TaskStatus_getitem_name |].
  split.
  { intros s st. unfold TaskStatus_getitem.
    repeat match goal with
      | |- context [String.eqb s ?n] =>
          destruct (String.eqb_spec s n) as [-> | _]
      end; intros E; try discriminate; injection E as <-; reflexivity. }
  intros st; destruct st; reflexivity.
Qed.

(** ** Categories *)

(** X21: [get_categories] changes nothing and returns, without repetition,
    exactly the categories of the tasks that the manager holds, whatever
    their status (a soft-deleted task still contributes its category). *)
Theorem get_categories_spec {N : Type} (s : State N) :
  exists r,
    get_categories s = (Ok r, s)
    /\ NoDup r
    /\ forall c, In c r <-> exists t, In t (tasks s) /\ category t = c.
Proof.
  unfold get_categories, bind, read, ret. eexists. split; [reflexivity |].
  split; [apply NoDup_elements |].
  intros c. rewrite <- list_elem_of_In, elem_of_elements, elem_of_list_to_set.
  rewrite list_elem_of_In, in_map_iff.
  split; intros (t & H1 & H2); exists t; auto.
Qed.
